(** * Booking notification endpoint: route resolution, chat and mail senders

    A shallow embedding of the three JavaScript modules of the booking
    endpoint: the chat routing module ([parseChatMap],
    [resolveTelegramRoute], [telegramSendText]), the mail module
    ([createTransport], [sendGuestEmail]) and the request handler
    ([BookingSchema], [POST]).

    Conventions of the embedding.
    - A JavaScript string is a sequence of code units; the model uses
      [string], one character per code unit below 256.  Every character the
      code inspects (comma, colon, white space, digits) lies in that range.
    - A JavaScript number is modelled by [number]: NaN, the infinities, or
      the exact rational value of the literal it was read from.  Rounding
      to binary64 is the identity on the integers below 2^53, the range of
      chat identifiers, ports and status codes; the two zeros are one value.
    - A thrown error is a [Throw] completion carrying the error's name and
      message; [await] of a rejected promise is the same completion.
    - Outbound calls and log entries are recorded in a trace of events; what
      the outside world answers is read from a [World]. *)

From Stdlib Require Import ZArith QArith Ascii String List Bool Lia DecimalString.
From stdpp Require Import base option list gmap strings.

Local Open Scope string_scope.
Local Open Scope Z_scope.

(** ** Errors and completions *)

Record exn : Type := mkExn { ename : string; emessage : string }.

Inductive completion (A : Type) : Type :=
| Return (a : A)
| Throw (e : exn).
Arguments Return {A} a.
Arguments Throw {A} e.

Definition Error (msg : string) : exn := mkExn "Error" msg.
Definition TypeError (msg : string) : exn := mkExn "TypeError" msg.

Definition cbind {A B} (c : completion A) (k : A -> completion B) : completion B :=
  match c with
  | Return a => k a
  | Throw e => Throw e
  end.

(** ** Strings *)

Module Str.

(** White space of [String.prototype.trim] and of the numeric-string
    grammar: TAB, LF, VT, FF, CR, SP and NBSP among the units below 256. *)
Definition is_ws (c : ascii) : bool :=
  let n := nat_of_ascii c in
  existsb (Nat.eqb n) [9; 10; 11; 12; 13; 32; 160]%nat.

Fixpoint trimStart (s : string) : string :=
  match s with
  | EmptyString => EmptyString
  | String c s' => if is_ws c then trimStart s' else s
  end.

Fixpoint trimEnd (s : string) : string :=
  match s with
  | EmptyString => EmptyString
  | String c s' =>
      match trimEnd s' with
      | EmptyString => if is_ws c then EmptyString else String c EmptyString
      | t => String c t
      end
  end.

Definition trim (s : string) : string := trimEnd (trimStart s).

(** [s.includes(c)] for a one-character needle. *)
Fixpoint includes (c : ascii) (s : string) : bool :=
  match s with
  | EmptyString => false
  | String d s' => Ascii.eqb d c || includes c s'
  end.

(** [s.split(c)] for a one-character separator: the first piece and the
    pieces after it (the result of [split] is never empty). *)
Fixpoint split_pieces (c : ascii) (s : string) : string * list string :=
  match s with
  | EmptyString => (EmptyString, [])
  | String d s' =>
      let '(h, t) := split_pieces c s' in
      if Ascii.eqb d c then (EmptyString, h :: t) else (String d h, t)
  end.

Definition split (c : ascii) (s : string) : list string :=
  let '(h, t) := split_pieces c s in h :: t.

(** [parts.join(sep)] *)
Fixpoint join (sep : string) (parts : list string) : string :=
  match parts with
  | [] => EmptyString
  | [p] => p
  | p :: rest => p ++ sep ++ join sep rest
  end.

Definition is_empty (s : string) : bool :=
  match s with EmptyString => true | _ => false end.

End Str.

(** ** Numbers *)

Inductive number : Type :=
| NaN
| Infinity (negative : bool)
| Finite (q : Q).

Definition Int (z : Z) : number := Finite (inject_Z z).

Module Num.

(** [a === b] on numbers. *)
Definition strict_eq (a b : number) : bool :=
  match a, b with
  | Finite p, Finite q => Qeq_bool p q
  | Infinity s, Infinity t => Bool.eqb s t
  | _, _ => false
  end.

(** ToBoolean: false on zero and NaN. *)
Definition truthy (n : number) : bool :=
  match n with
  | NaN => false
  | Infinity _ => true
  | Finite q => negb (Qeq_bool q 0)
  end.

Definition digit_of (radix : N) (c : ascii) : option N :=
  let n := N_of_ascii c in
  let v := if (48 <=? n)%N && (n <=? 57)%N then Some (n - 48)%N
           else if (97 <=? n)%N && (n <=? 102)%N then Some (n - 87)%N
           else if (65 <=? n)%N && (n <=? 70)%N then Some (n - 55)%N
           else None in
  match v with
  | Some d => if (d <? radix)%N then Some d else None
  | None => None
  end.

(** The longest prefix of digits of the radix, its value continued from
    [acc], the number of digits read, and the rest of the input. *)
Fixpoint digits (radix : N) (l : list ascii) (acc : N) (count : nat)
  : N * nat * list ascii :=
  match l with
  | c :: l' =>
      match digit_of radix c with
      | Some d => digits radix l' (acc * radix + d)%N (S count)
      | None => (acc, count, l)
      end
  | [] => (acc, count, [])
  end.

(** NonDecimalIntegerLiteral: at least one digit and nothing after. *)
Definition radix_literal (radix : N) (l : list ascii) : number :=
  match digits radix l 0%N 0%nat with
  | (v, S _, []) => Int (Z.of_N v)
  | _ => NaN
  end.

(** [m * 10 ^ e], reduced. *)
Definition scale10 (m : Z) (e : Z) : Q :=
  if 0 <=? e then inject_Z (m * 10 ^ e)
  else Qred (Qmake m (Z.to_pos (10 ^ (- e)))).

(** ExponentPart, or nothing: the exponent, when the input is spent. *)
Definition exponent_part (l : list ascii) : option Z :=
  match l with
  | [] => Some 0
  | c :: l' =>
      if Ascii.eqb c "e" || Ascii.eqb c "E" then
        let '(neg, ds) :=
          match l' with
          | s :: r => if Ascii.eqb s "-" then (true, r)
                      else if Ascii.eqb s "+" then (false, r)
                      else (false, l')
          | [] => (false, l')
          end in
        match digits 10 ds 0%N 0%nat with
        | (v, S _, []) => Some (if neg : bool then - Z.of_N v else Z.of_N v)
        | _ => None
        end
      else None
  end.

(** StrUnsignedDecimalLiteral without the [Infinity] alternative. *)
Definition unsigned_decimal (l : list ascii) : option Q :=
  let '(ip, ni, r1) := digits 10 l 0%N 0%nat in
  let '(m, nf, r2) :=
    match r1 with
    | c :: r => if Ascii.eqb c "." then
                  let '(m, nf, r2) := digits 10 r ip 0%nat in (m, nf, r2)
                else (ip, 0%nat, r1)
    | [] => (ip, 0%nat, r1)
    end in
  match (ni + nf)%nat with
  | O => None
  | S _ =>
      match exponent_part r2 with
      | Some e => Some (scale10 (Z.of_N m) (e - Z.of_nat nf))
      | None => None
      end
  end.

Definition signed_decimal (l : list ascii) : number :=
  let '(neg, r) :=
    match l with
    | s :: r => if Ascii.eqb s "-" then (true, r)
                else if Ascii.eqb s "+" then (false, r)
                else (false, l)
    | [] => (false, l)
    end in
  if String.eqb (string_of_list_ascii r) "Infinity" then Infinity neg
  else match unsigned_decimal r with
       | Some q => Finite (if neg : bool then Qred (Qopp q) else q)
       | None => NaN
       end.

(** StringToNumber: the value of a string under [Number(...)]. *)
Definition of_string (s : string) : number :=
  match list_ascii_of_string (Str.trim s) with
  | [] => Int 0
  | c0 :: c1 :: r =>
      if Ascii.eqb c0 "0" && (Ascii.eqb c1 "x" || Ascii.eqb c1 "X") then radix_literal 16 r
      else if Ascii.eqb c0 "0" && (Ascii.eqb c1 "o" || Ascii.eqb c1 "O") then radix_literal 8 r
      else if Ascii.eqb c0 "0" && (Ascii.eqb c1 "b" || Ascii.eqb c1 "B") then radix_literal 2 r
      else signed_decimal (c0 :: c1 :: r)
  | l => signed_decimal l
  end.

End Num.

(** ** Values *)

(** The values the routing and mail code handles: [undefined], strings,
    numbers, and a member inherited from [Object.prototype] (a built-in
    function, or the prototype object itself under the name __proto__). *)
Inductive value : Type :=
| VUndefined
| VString (s : string)
| VNumber (n : number)
| VInherited (name : string).

Definition truthy (v : value) : bool :=
  match v with
  | VUndefined => false
  | VString s => negb (Str.is_empty s)
  | VNumber n => Num.truthy n
  | VInherited _ => true
  end.

(** [a || b] *)
Definition or_else (a b : value) : value := if truthy a then a else b.

(** [Number(v)] *)
Definition Number (v : value) : number :=
  match v with
  | VUndefined => NaN
  | VString s => Num.of_string s
  | VNumber n => n
  | VInherited _ => NaN
  end.

(** The own property names of [Object.prototype], which every object
    literal inherits. *)
Definition Object_prototype_names : list string :=
  [ "constructor"; "__defineGetter__"; "__defineSetter__"; "hasOwnProperty";
    "__lookupGetter__"; "__lookupSetter__"; "isPrototypeOf";
    "propertyIsEnumerable"; "toString"; "valueOf"; "__proto__";
    "toLocaleString" ].

Definition inherited (k : string) : bool :=
  existsb (String.eqb k) Object_prototype_names.

(** [process.env] is a finite map: the variables that are set, each a
    string; reading one that is not set gives [undefined]. *)
Definition env_get (env : gmap string string) (k : string) : value :=
  match env !! k with
  | Some s => VString s
  | None => VUndefined
  end.

(** ** The routing module *)

(** An object literal used as a map from property code to chat id: its own
    properties.  Reading goes through the prototype chain; writing the name
    __proto__ with a number runs the inherited setter, which ignores it. *)
Definition chat_map_get (m : gmap string number) (k : string) : value :=
  match m !! k with
  | Some n => VNumber n
  | None => if inherited k then VInherited k else VUndefined
  end.

Definition chat_map_set (m : gmap string number) (k : string) (n : number)
  : gmap string number :=
  if String.eqb k "__proto__" then m else <[k := n]> m.

(** One turn of the loop of [parseChatMap] on [part], from the map built
    so far.  The destructuring [[code, chat] = p.split(":")] leaves [chat]
    undefined when the split has one piece, and [chat.trim()] then throws. *)
Definition parseChatMap_step (map : gmap string number) (part : string)
  : completion (gmap string number) :=
  let p := Str.trim part in
  if Str.is_empty p || negb (Str.includes ":" p) then Return map
  else
    match Str.split ":" p with
    | code :: chat :: _ =>
        Return (chat_map_set map (Str.trim code) (Number (VString (Str.trim chat))))
    | _ => Throw (TypeError "Cannot read properties of undefined (reading 'trim')")
    end.

Fixpoint parseChatMap_loop (map : gmap string number) (parts : list string)
  : completion (gmap string number) :=
  match parts with
  | [] => Return map
  | part :: rest =>
      cbind (parseChatMap_step map part) (fun map' => parseChatMap_loop map' rest)
  end.

Definition parseChatMap_raw (raw : string) : completion (gmap string number) :=
  parseChatMap_loop ∅ (Str.split "," raw).

Definition parseChatMap (env : gmap string string) : completion (gmap string number) :=
  (* process.env.TELEGRAM_PROPERTY_CHAT_MAP || "" *)
  let raw := match env !! "TELEGRAM_PROPERTY_CHAT_MAP" with
             | Some s => s
             | None => ""
             end in
  parseChatMap_raw raw.

Record NotificationRoute : Type := mkRoute { botToken : option string; chatId : value }.

(** [CHAT_MAP] is the module-level constant, built when the module loads;
    [env] is [process.env] at the time of the call. *)
Definition resolveTelegramRoute (CHAT_MAP : gmap string number)
    (env : gmap string string) (propertyCode : string) : NotificationRoute :=
  if String.eqb propertyCode "ALL" then
    {| botToken := env !! "TELEGRAM_CONSOLIDATED_BOT_TOKEN";
       chatId := VNumber (Number (env_get env "TELEGRAM_CONSOLIDATED_CHAT_ID")) |}
  else
    {| botToken := env !! "TELEGRAM_DEFAULT_BOT_TOKEN";
       chatId := or_else (chat_map_get CHAT_MAP propertyCode)
                   (VNumber (Number (or_else (env_get env "TELEGRAM_DEFAULT_CHAT_ID")
                                             (VNumber (Int 0))))) |}.

(** ** JSON values and the outside world *)

Inductive json : Type :=
| JNull
| JBool (b : bool)
| JNumber (z : Z)
| JString (s : string)
| JArray (items : list json)
| JObject (fields : list (string * json)).

Fixpoint assoc {A} (k : string) (l : list (string * A)) : option A :=
  match l with
  | [] => None
  | (k', v) :: l' => if String.eqb k k' then Some v else assoc k l'
  end.

(** [j.k] on a value that is not null, for a name [k] that no JSON value
    inherits (ok, description and the fields of the schema are such
    names): the own property of an object, [undefined] otherwise. *)
Definition json_get (k : string) (j : json) : option json :=
  match j with
  | JObject fields => assoc k fields
  | _ => None
  end.

Definition json_truthy (j : json) : bool :=
  match j with
  | JNull => false
  | JBool b => b
  | JNumber z => negb (z =? 0)
  | JString s => negb (Str.is_empty s)
  | JArray _ | JObject _ => true
  end.

Definition Z_to_string (z : Z) : string :=
  NilZero.string_of_int (Z.to_int z).

(** ToString, as a template literal applies it (integers print in decimal
    below 10^21). *)
Fixpoint json_to_string (j : json) : string :=
  match j with
  | JNull => "null"
  | JBool b => if b then "true" else "false"
  | JNumber z => Z_to_string z
  | JString s => s
  | JArray items =>
      Str.join ","
        (List.map (fun x => match x with JNull => "" | _ => json_to_string x end) items)
  | JObject _ => "[object Object]"
  end.

(** What [fetch] resolves to: the status line, and the outcome of
    [resp.json()] ([None] when the body is not JSON and the promise
    rejects). *)
Record Response : Type := mkResponse {
  status : Z;
  statusText : string;
  json_body : option json
}.

(** [resp.ok]: the status is in the range 200-299. *)
Definition resp_ok (r : Response) : bool := (200 <=? status r) && (status r <=? 299).

(** The second argument of [fetch]; [body] is the object handed to
    [JSON.stringify]. *)
Record FetchInit : Type := mkFetchInit {
  method : string;
  headers : list (string * string);
  body : list (string * value)
}.

Record TransportOptions : Type := mkTransport {
  host : string;
  port : number;
  secure : bool;
  auth_user : string;
  auth_pass : string
}.

Record MailMessage : Type := mkMail {
  from : value;
  to : value;
  subject : value;
  html : value;
  text : value
}.

Inductive event : Type :=
| EFetch (url : string) (init : FetchInit)
| ESendMail (transporter : TransportOptions) (message : MailMessage)
| ELog (e : exn).

(** The environment at the time of a request and the answers of the two
    remote services. *)
Record World : Type := mkWorld {
  env : gmap string string;
  fetch_reply : string -> FetchInit -> completion Response;
  sendMail_reply : TransportOptions -> MailMessage -> completion unit
}.

(** ** Computations with effects *)

Definition M (A : Type) : Type := World -> list event -> completion A * list event.

Definition ret {A} (a : A) : M A := fun _ tr => (Return a, tr).
Definition throw {A} (e : exn) : M A := fun _ tr => (Throw e, tr).
Definition lift {A} (c : completion A) : M A := fun _ tr => (c, tr).
Definition emit (ev : event) : M unit := fun _ tr => (Return tt, (tr ++ [ev])%list).
Definition ask {A} (f : World -> A) : M A := fun w tr => (Return (f w), tr).

Definition bind {A B} (c : M A) (k : A -> M B) : M B :=
  fun w tr =>
    match c w tr with
    | (Return a, tr') => k a w tr'
    | (Throw e, tr') => (Throw e, tr')
    end.

Definition try_catch {A} (c : M A) (handler : exn -> M A) : M A :=
  fun w tr =>
    match c w tr with
    | (Return a, tr') => (Return a, tr')
    | (Throw e, tr') => handler e w tr'
    end.

Notation "'let*' x ':=' c 'in' k" := (bind c (fun x => k))
  (at level 10, x name, c at level 100, k at level 200).

(** ** The chat sender *)

(** A string or [undefined] inside a template literal. *)
Definition template_string (o : option string) : string :=
  match o with
  | Some s => s
  | None => "undefined"
  end.

Record TelegramText : Type := mkTelegramText {
  tt_botToken : option string;
  tt_chatId : value;
  tt_text : string
}.

Definition telegram_url (botToken : option string) : string :=
  "https://api.telegram.org/bot" ++ template_string botToken ++ "/sendMessage".

Definition telegram_init (chatId : value) (text : string) : FetchInit :=
  {| method := "POST";
     headers := [("content-type", "application/json")];
     body := [("chat_id", chatId); ("text", VString text); ("parse_mode", VString "HTML")] |}.

Definition telegramSendText (a : TelegramText) : M json :=
  let url := telegram_url (tt_botToken a) in
  let init := telegram_init (tt_chatId a) (tt_text a) in
  let* _ := emit (EFetch url init) in
  let* reply := ask (fun w => fetch_reply w url init) in
  let* resp := lift reply in
  (* resp.json().catch(() => ({})) *)
  let data := match json_body resp with Some j => j | None => JObject [] end in
  (* !resp.ok || data.ok !== true; reading a property of null throws *)
  let* failed :=
    if negb (resp_ok resp) then ret true
    else match data with
         | JNull => throw (TypeError "Cannot read properties of null (reading 'ok')")
         | _ => ret (match json_get "ok" data with
                     | Some (JBool true) => false
                     | _ => true
                     end)
         end in
  if failed : bool then
    (* data?.description || resp.statusText *)
    let desc := match json_get "description" data with
                | Some d => if json_truthy d then json_to_string d else statusText resp
                | None => statusText resp
                end in
    throw (Error ("Telegram failed: " ++ Z_to_string (status resp) ++ " " ++ desc))
  else ret data.

(** ** The mail module *)

(** [!x] for a variable of the environment: not set, or empty. *)
Definition falsy_string (o : option string) : bool :=
  match o with
  | Some s => Str.is_empty s
  | None => true
  end.

Definition createTransport (env : gmap string string) : completion TransportOptions :=
  let host := env !! "SMTP_HOST" in
  let port := Number (or_else (env_get env "SMTP_PORT") (VNumber (Int 587))) in
  let user := env !! "SMTP_USER" in
  let pass := env !! "SMTP_PASS" in
  if falsy_string host || falsy_string user || falsy_string pass then
    Throw (Error "SMTP env missing")
  else
    Return {| host := default "" host;
              port := port;
              secure := Num.strict_eq port (Int 465);
              auth_user := default "" user;
              auth_pass := default "" pass |}.

(** An object literal with its own properties in order; a name it does not
    own is read through [Object.prototype]. *)
Definition obj_get (o : list (string * value)) (k : string) : value :=
  match assoc k o with
  | Some v => v
  | None => if inherited k then VInherited k else VUndefined
  end.

(** [sendGuestEmail({ to, subject, html, text })]: the parameter is
    destructured from the object the caller passes. *)
Definition sendGuestEmail (arg : list (string * value)) : M unit :=
  let to := obj_get arg "to" in
  let subject := obj_get arg "subject" in
  let html := obj_get arg "html" in
  let text := obj_get arg "text" in
  let* e := ask env in
  let from := or_else (env_get e "SMTP_FROM") (env_get e "SMTP_USER") in
  let* transporter := lift (createTransport e) in
  let message := {| from := from; to := to; subject := subject; html := html; text := text |} in
  let* _ := emit (ESendMail transporter message) in
  let* reply := ask (fun w => sendMail_reply w transporter message) in
  lift reply.

(** ** The request handler *)

Record Booking : Type := mkBooking {
  propertyCode : string;
  roomId : string;
  guestName : string;
  phone : string;
  email : string;
  checkIn : string;
  checkOut : string;
  note : string
}.

Inductive ZodIssue : Type :=
| invalid_type (path : list string)
| too_small (path : list string) (minimum : nat)
| invalid_string (path : list string).

Record HttpResponse : Type := mkHttp {
  http_status : Z;
  ok : bool;
  error : option string
}.

Section Handler.

(** The pattern behind [z.string().email()], and the text a [ZodError]
    carries as its message, belong to the validation library. *)
Variable is_email : string -> bool.
Variable format_issues : list ZodIssue -> string.

(** The handler imports [sendTelegramMessage] from the routing module. *)
Variable sendTelegramMessage : NotificationRoute -> string -> M unit.

(** The module-level [CHAT_MAP] of the routing module. *)
Variable CHAT_MAP : gmap string number.

(** [z.string()] with its checks on the value found under a key
    ([None] when the key is absent): the issues and the string read. *)
Definition zod_string (key : string) (checks : string -> list ZodIssue)
    (v : option json) : list ZodIssue * string :=
  match v with
  | Some (JString s) => (checks s, s)
  | _ => ([invalid_type [key]], "")
  end.

Definition zod_min (key : string) (n : nat) (s : string) : list ZodIssue :=
  if (String.length s <? n)%nat then [too_small [key] n] else [].

Definition email_check (key : string) (s : string) : list ZodIssue :=
  if is_email s then [] else [invalid_string [key]].

(** [z.string().optional().default("")] *)
Definition zod_optional_string (key : string) (v : option json) : list ZodIssue * string :=
  match v with
  | None => ([], "")
  | Some (JString s) => ([], s)
  | Some _ => ([invalid_type [key]], "")
  end.

Definition ZodError (issues : list ZodIssue) : exn :=
  mkExn "ZodError" (format_issues issues).

(** [BookingSchema.parse(body)] *)
Definition BookingSchema_parse (body : json) : completion Booking :=
  match body with
  | JObject _ =>
      let field k := json_get k body in
      let '(i1, v1) := zod_string "propertyCode" (zod_min "propertyCode" 3) (field "propertyCode") in
      let '(i2, v2) := zod_string "roomId" (zod_min "roomId" 1) (field "roomId") in
      let '(i3, v3) := zod_string "guestName" (zod_min "guestName" 2) (field "guestName") in
      let '(i4, v4) := zod_string "phone" (zod_min "phone" 6) (field "phone") in
      let '(i5, v5) := zod_string "email" (email_check "email") (field "email") in
      let '(i6, v6) := zod_string "checkIn" (zod_min "checkIn" 8) (field "checkIn") in
      let '(i7, v7) := zod_string "checkOut" (zod_min "checkOut" 8) (field "checkOut") in
      let '(i8, v8) := zod_optional_string "note" (field "note") in
      match (i1 ++ i2 ++ i3 ++ i4 ++ i5 ++ i6 ++ i7 ++ i8)%list with
      | [] => Return (mkBooking v1 v2 v3 v4 v5 v6 v7 v8)
      | issues => Throw (ZodError issues)
      end
  | _ => Throw (ZodError [invalid_type []])
  end.

Definition newline : string := String (ascii_of_nat 10) EmptyString.

(** The text of the chat message: the lines that are not empty, joined
    by a newline.  The arrow between the dates is one code unit above 255
    in the source; the string below holds its UTF-8 bytes. *)
Definition booking_message (data : Booking) : string :=
  Str.join newline
    (List.filter (fun l => negb (Str.is_empty l))
       [ "<b>NEW BOOKING REQUEST</b>";
         "<b>Property:</b> " ++ propertyCode data;
         "<b>Room:</b> " ++ roomId data;
         "<b>Name:</b> " ++ guestName data;
         "<b>Phone:</b> " ++ phone data;
         "<b>Email:</b> " ++ email data;
         "<b>Dates:</b> " ++ checkIn data ++ " → " ++ checkOut data;
         if Str.is_empty (note data) then "" else "<b>Note:</b> " ++ note data ]).

(** The object the handler passes to [sendGuestEmail]. *)
Definition guest_email_argument (data : Booking) : list (string * value) :=
  [ ("to", VString (email data));
    ("guestName", VString (guestName data));
    ("propertyCode", VString (propertyCode data));
    ("roomId", VString (roomId data));
    ("checkIn", VString (checkIn data));
    ("checkOut", VString (checkOut data)) ].

(** [String(e?.message || e)] for a thrown error. *)
Definition error_text (e : exn) : string :=
  if Str.is_empty (emessage e) then ename e else emessage e.

(** [POST(req)], where [req_json] is the completion of [req.json()]. *)
Definition POST (req_json : completion json) : M HttpResponse :=
  try_catch
    (let* body := lift req_json in
     let* data := lift (BookingSchema_parse body) in
     let* e := ask env in
     let route := resolveTelegramRoute CHAT_MAP e (propertyCode data) in
     let msg := booking_message data in
     let* _ := sendTelegramMessage route msg in
     let* _ := sendGuestEmail (guest_email_argument data) in
     ret {| http_status := 200; ok := true; error := None |})
    (fun e =>
       let* _ := emit (ELog e) in
       ret {| http_status := 400; ok := false; error := Some (error_text e) |}).

End Handler.

(** Modelled from the spec: [sendTelegramMessage], which the handler imports
    from the routing module and calls with the route and the message text;
    the module exports the chat sender as [telegramSendText].  The spec's
    handler "sends the chat message" to the resolved route through the chat
    notification sender, given the bot token, the chat id and the text; the
    parsed reply is not used. *)
Definition sendTelegramMessage_spec (route : NotificationRoute) (msg : string) : M unit :=
  let* _ := telegramSendText {| tt_botToken := botToken route;
                                tt_chatId := chatId route;
                                tt_text := msg |} in
  ret tt.

(** ** Vocabulary of the statements *)

(** An entry of the configuration string is dropped when it is empty after
    trimming or has no colon. *)
Definition dropped_entry (entry : string) : Prop :=
  Str.trim entry = "" \/ Str.includes ":" entry = false.

Definition comma_free (entry : string) : Prop := Str.includes "," entry = false.

(** The default chat id: [Number(process.env.TELEGRAM_DEFAULT_CHAT_ID || 0)]. *)
Definition default_chat_id (env : gmap string string) : number :=
  Number (or_else (env_get env "TELEGRAM_DEFAULT_CHAT_ID") (VNumber (Int 0))).

(** The number [n] equals the integer [z]. *)
Definition number_is (n : number) (z : Z) : Prop :=
  exists q, n = Finite q /\ (q == inject_Z z)%Q.

(** A variable of the mail configuration is missing when it is not set or
    empty, the two cases [!x] does not tell apart. *)
Definition smtp_missing (env : gmap string string) : Prop :=
  falsy_string (env !! "SMTP_HOST") = true
  \/ falsy_string (env !! "SMTP_USER") = true
  \/ falsy_string (env !! "SMTP_PASS") = true.

(** The outbound notification calls recorded in a trace. *)
Definition is_notification (ev : event) : bool :=
  match ev with
  | EFetch _ _ | ESendMail _ _ => true
  | ELog _ => false
  end.

Definition notifications (tr : list event) : list event := List.filter is_notification tr.

(** The required fields of a BookingRequest with a minimum length, as the
    data model lists them; the email field has a format instead. *)
Definition min_length_fields : list (string * nat) :=
  [ ("propertyCode", 3); ("roomId", 1); ("guestName", 2); ("phone", 6);
    ("checkIn", 8); ("checkOut", 8) ]%nat.

Definition missing_field (body : json) (k : string) : Prop := json_get k body = None.

Definition too_short (body : json) (k : string) (n : nat) : Prop :=
  exists s, json_get k body = Some (JString s) /\ (String.length s < n)%nat.

Definition bad_email (is_email : string -> bool) (body : json) : Prop :=
  exists s, json_get "email" body = Some (JString s) /\ is_email s = false.

(** A payload that misses a required field or violates a minimum-length or
    format constraint. *)
Definition violates_BookingRequest (is_email : string -> bool) (body : json) : Prop :=
  (exists k n, In (k, n) min_length_fields /\ (missing_field body k \/ too_short body k n))
  \/ missing_field body "email"
  \/ bad_email is_email body.

(** The reply of the chat-bot API with the body
    {ok: false, description: "chat not found"}. *)
Definition chat_not_found : json :=
  JObject [("ok", JBool false); ("description", JString "chat not found")].

(** The chat-bot API answers every call with [resp]. *)
Definition replies_with (w : World) (resp : Response) : Prop :=
  forall url init, fetch_reply w url init = Return resp.

Definition colon_free (s : string) : Prop := Str.includes ":" s = false.

(** The shape of a key of the configuration map: no white space around
    it, no colon and no comma inside. *)
Definition key_shape (k : string) : Prop :=
  Str.trim k = k /\ Str.includes ":" k = false /\ Str.includes "," k = false.

(** The one call the chat sender makes. *)
Definition telegram_call (a : TelegramText) : event :=
  EFetch (telegram_url (tt_botToken a)) (telegram_init (tt_chatId a) (tt_text a)).

(** The keys the schema reads. *)
Definition schema_keys : list string :=
  [ "propertyCode"; "roomId"; "guestName"; "phone"; "email"; "checkIn"; "checkOut"; "note" ].

(** The payload carries [data]: every required field is a string of its
    minimum length (the email of the accepted format), and the note is a
    string or absent, read as the empty string. *)
Definition carries (is_email : string -> bool) (body : json) (data : Booking) : Prop :=
  (json_get "propertyCode" body = Some (JString (propertyCode data))
   /\ (3 <= String.length (propertyCode data))%nat)
  /\ (json_get "roomId" body = Some (JString (roomId data))
      /\ (1 <= String.length (roomId data))%nat)
  /\ (json_get "guestName" body = Some (JString (guestName data))
      /\ (2 <= String.length (guestName data))%nat)
  /\ (json_get "phone" body = Some (JString (phone data))
      /\ (6 <= String.length (phone data))%nat)
  /\ (json_get "email" body = Some (JString (email data))
      /\ is_email (email data) = true)
  /\ (json_get "checkIn" body = Some (JString (checkIn data))
      /\ (8 <= String.length (checkIn data))%nat)
  /\ (json_get "checkOut" body = Some (JString (checkOut data))
      /\ (8 <= String.length (checkOut data))%nat)
  /\ (json_get "note" body = Some (JString (note data))
      \/ (json_get "note" body = None /\ note data = "")).

(** The two answers of the handler. *)
Definition success_response : HttpResponse :=
  {| http_status := 200; ok := true; error := None |}.

Definition failure_response (e : exn) : HttpResponse :=
  {| http_status := 400; ok := false; error := Some (error_text e) |}.

(** The message [sendGuestEmail] builds from its argument. *)
Definition mail_of (env : gmap string string) (arg : list (string * value)) : MailMessage :=
  {| from := or_else (env_get env "SMTP_FROM") (env_get env "SMTP_USER");
     to := obj_get arg "to";
     subject := obj_get arg "subject";
     html := obj_get arg "html";
     text := obj_get arg "text" |}.

(** ** Strings: splitting and trimming *)

Lemma split_pieces_comma_free c p s :
  Str.includes c p = false ->
  Str.split_pieces c (p ++ String c s) = (p, Str.split c s).
Proof.
  induction p as [|d p IH]; simpl.
  - intros _. rewrite Ascii.eqb_refl. unfold Str.split.
    destruct (Str.split_pieces c s); reflexivity.
  - intros H. apply orb_false_iff in H as [Hd Hp].
    rewrite (IH Hp), Hd. reflexivity.
Qed.

Lemma split_pieces_no_sep c p :
  Str.includes c p = false -> Str.split_pieces c p = (p, []).
Proof.
  induction p as [|d p IH]; simpl; [reflexivity|].
  intros H. apply orb_false_iff in H as [Hd Hp].
  rewrite (IH Hp), Hd. reflexivity.
Qed.

(** Splitting a joined list of separator-free pieces gives the pieces back
    (the empty list joins to the empty string, which splits to one empty
    piece). *)
Lemma split_join c p rest :
  Forall (fun e => Str.includes c e = false) (p :: rest) ->
  Str.split c (Str.join (String c "") (p :: rest)) = p :: rest.
Proof.
  revert p. induction rest as [|q rest IH]; intros p H.
  - simpl. unfold Str.split. inversion H; subst.
    rewrite split_pieces_no_sep by assumption. reflexivity.
  - inversion H as [|? ? Hp Hrest]; subst.
    change (Str.join (String c "") (p :: q :: rest))
      with (p ++ String c (Str.join (String c "") (q :: rest))).
    unfold Str.split at 1. rewrite split_pieces_comma_free by assumption.
    rewrite IH by assumption. reflexivity.
Qed.

Lemma split_has_second c s :
  Str.includes c s = true ->
  exists h x t, Str.split c s = h :: x :: t.
Proof.
  unfold Str.split. induction s as [|d s IH]; simpl; [discriminate|].
  intros H. destruct (Str.split_pieces c s) as [h t] eqn:E.
  destruct (Ascii.eqb d c) eqn:Hd.
  - eauto.
  - simpl in H. destruct (IH H) as (h' & x & t' & Heq).
    inversion Heq; subst. eauto.
Qed.

Lemma ws_not_sep c d : Str.is_ws c = false -> Str.is_ws d = true -> Ascii.eqb d c = false.
Proof.
  intros Hc Hd. destruct (Ascii.eqb d c) eqn:E; [|reflexivity].
  apply Ascii.eqb_eq in E. congruence.
Qed.

Lemma includes_trimStart c s :
  Str.is_ws c = false -> Str.includes c (Str.trimStart s) = Str.includes c s.
Proof.
  intros Hc. induction s as [|d s IH]; simpl; [reflexivity|].
  destruct (Str.is_ws d) eqn:Hd; [|reflexivity].
  rewrite IH, (ws_not_sep c d) by assumption. reflexivity.
Qed.

Lemma includes_trimEnd c s :
  Str.is_ws c = false -> Str.includes c (Str.trimEnd s) = Str.includes c s.
Proof.
  intros Hc. induction s as [|d s IH]; simpl; [reflexivity|].
  destruct (Str.trimEnd s) as [|e t] eqn:E.
  - simpl in IH. rewrite <- IH.
    destruct (Str.is_ws d) eqn:Hd; simpl.
    + rewrite (ws_not_sep c d) by assumption. reflexivity.
    + reflexivity.
  - rewrite <- IH. reflexivity.
Qed.

Lemma includes_trim c s :
  Str.is_ws c = false -> Str.includes c (Str.trim s) = Str.includes c s.
Proof.
  intros Hc. unfold Str.trim.
  rewrite includes_trimEnd, includes_trimStart by assumption. reflexivity.
Qed.

(** ** The configuration map *)

Lemma parseChatMap_step_dropped map entry :
  dropped_entry entry -> parseChatMap_step map entry = Return map.
Proof.
  intros [H|H]; unfold parseChatMap_step.
  - rewrite H. reflexivity.
  - rewrite includes_trim by reflexivity. rewrite H.
    rewrite orb_true_r. reflexivity.
Qed.

Lemma parseChatMap_step_returns map part :
  exists map', parseChatMap_step map part = Return map'.
Proof.
  unfold parseChatMap_step.
  destruct (Str.is_empty (Str.trim part)); simpl; [eauto|].
  destruct (Str.includes ":" (Str.trim part)) eqn:E; simpl; [|eauto].
  destruct (split_has_second _ _ E) as (h & x & t & ->). eauto.
Qed.

Lemma parseChatMap_loop_returns parts : forall map,
  exists map', parseChatMap_loop map parts = Return map'.
Proof.
  induction parts as [|p parts IH]; intros map; simpl; [eauto|].
  destruct (parseChatMap_step_returns map p) as [m ->]. simpl. apply IH.
Qed.

Lemma parseChatMap_loop_dropped before entry after : forall map,
  dropped_entry entry ->
  parseChatMap_loop map (before ++ entry :: after) = parseChatMap_loop map (before ++ after).
Proof.
  induction before as [|p before IH]; intros map H; simpl.
  - rewrite parseChatMap_step_dropped by assumption. reflexivity.
  - destruct (parseChatMap_step map p); simpl; [apply IH; assumption | reflexivity].
Qed.

(** Parsing the joined entries runs the loop over the entries. *)
Lemma parseChatMap_raw_join entries :
  Forall comma_free entries ->
  parseChatMap_raw (Str.join "," entries) = parseChatMap_loop ∅ entries.
Proof.
  intros H. unfold parseChatMap_raw. destruct entries as [|p rest].
  - reflexivity.
  - rewrite split_join by exact H. reflexivity.
Qed.

Lemma parseChatMap_insert raw (env : gmap string string) :
  parseChatMap (<["TELEGRAM_PROPERTY_CHAT_MAP" := raw]> env) = parseChatMap_raw raw.
Proof. unfold parseChatMap. rewrite lookup_insert_eq. reflexivity. Qed.

(** C6. The configuration string "A:111, B:222" parses to the map
    {A: 111, B: 222}.  For every configuration string, written as its
    comma-separated entries, an entry that has no colon or is empty after
    trimming contributes nothing: the map is the one parsed from the string
    without that entry.  Parsing never throws. *)
Theorem parseChatMap_entries :
  (forall env : gmap string string,
      parseChatMap (<["TELEGRAM_PROPERTY_CHAT_MAP" := "A:111, B:222"]> env)
      = Return {[ "A" := Int 111; "B" := Int 222 ]})
  /\ (forall (env : gmap string string) before entry after,
         Forall comma_free (before ++ entry :: after) ->
         dropped_entry entry ->
         parseChatMap (<["TELEGRAM_PROPERTY_CHAT_MAP" := Str.join "," (before ++ entry :: after)]> env)
         = parseChatMap (<["TELEGRAM_PROPERTY_CHAT_MAP" := Str.join "," (before ++ after)]> env))
  /\ (forall env : gmap string string, exists map, parseChatMap env = Return map).
Proof.
  split; [|split].
  - intros env. rewrite parseChatMap_insert. vm_compute. reflexivity.
  - intros env before entry after Hfree Hdrop.
    rewrite !parseChatMap_insert.
    rewrite !parseChatMap_raw_join.
    + apply parseChatMap_loop_dropped. exact Hdrop.
    + apply Forall_app in Hfree as [Hb Ha]. inversion Ha; subst.
      apply Forall_app. split; assumption.
    + exact Hfree.
  - intros env. apply parseChatMap_loop_returns.
Qed.

Lemma parseChatMap_entries_witness :
  parseChatMap (<["TELEGRAM_PROPERTY_CHAT_MAP" := Str.join "," (["A:111"] ++ " oops " :: [" B:222"])]> ∅)
  = parseChatMap (<["TELEGRAM_PROPERTY_CHAT_MAP" := Str.join "," (["A:111"] ++ [" B:222"])]> ∅).
Proof.
  apply (proj1 (proj2 parseChatMap_entries) ∅ ["A:111"] " oops " [" B:222"]).
  - repeat constructor.
  - right. reflexivity.
Defined.

(** ** Route resolution *)

(** C3. For every configuration map and environment, the property code
    "ALL" resolves to the consolidated bot token paired with the
    consolidated chat id, and the result does not depend on the map. *)
Theorem resolveTelegramRoute_ALL :
  (forall (CHAT_MAP : gmap string number) (env : gmap string string),
      resolveTelegramRoute CHAT_MAP env "ALL"
      = {| botToken := env !! "TELEGRAM_CONSOLIDATED_BOT_TOKEN";
           chatId := VNumber (Number (env_get env "TELEGRAM_CONSOLIDATED_CHAT_ID")) |})
  /\ (forall (m1 m2 : gmap string number) (env : gmap string string),
         resolveTelegramRoute m1 env "ALL" = resolveTelegramRoute m2 env "ALL").
Proof. split; reflexivity. Qed.

(** C4, as the claim states it, fails: a code mapped to the chat id 0 is
    routed to the default chat id. *)
Lemma resolveTelegramRoute_mapped_zero :
  let CHAT_MAP : gmap string number := {[ "HYD" := Int 0 ]} in
  let env : gmap string string := {[ "TELEGRAM_DEFAULT_CHAT_ID" := "999" ]} in
  "HYD" <> "ALL"
  /\ CHAT_MAP !! "HYD" = Some (Int 0)
  /\ parseChatMap {[ "TELEGRAM_PROPERTY_CHAT_MAP" := "HYD:0" ]} = Return CHAT_MAP
  /\ chatId (resolveTelegramRoute CHAT_MAP env "HYD") = VNumber (Int 999)
  /\ chatId (resolveTelegramRoute CHAT_MAP env "HYD") <> VNumber (Int 0).
Proof.
  cbv zeta. split; [discriminate|]. split; [reflexivity|].
  split; [vm_compute; reflexivity|]. split; [reflexivity|].
  vm_compute. discriminate.
Qed.

(** C4, amended. For every property code other than "ALL" that is a key of
    the configuration map, the route carries the default bot token, and the
    chat id mapped to the code when that id is neither zero nor NaN, the
    default chat id otherwise. *)
Theorem resolveTelegramRoute_mapped (CHAT_MAP : gmap string number)
    (env : gmap string string) (propertyCode : string) (n : number) :
  propertyCode <> "ALL" ->
  CHAT_MAP !! propertyCode = Some n ->
  resolveTelegramRoute CHAT_MAP env propertyCode
  = {| botToken := env !! "TELEGRAM_DEFAULT_BOT_TOKEN";
       chatId := if Num.truthy n then VNumber n else VNumber (default_chat_id env) |}.
Proof.
  intros Hne Hin. unfold resolveTelegramRoute, chat_map_get.
  apply String.eqb_neq in Hne. rewrite Hne, Hin. unfold or_else at 1. simpl.
  destruct (Num.truthy n); reflexivity.
Qed.

Lemma resolveTelegramRoute_mapped_witness :
  let CHAT_MAP : gmap string number := {[ "B2" := Int 555 ]} in
  let env : gmap string string := {[ "TELEGRAM_DEFAULT_BOT_TOKEN" := "tok" ]} in
  resolveTelegramRoute CHAT_MAP env "B2"
  = {| botToken := env !! "TELEGRAM_DEFAULT_BOT_TOKEN";
       chatId := if Num.truthy (Int 555) then VNumber (Int 555)
                 else VNumber (default_chat_id env) |}.
Proof.
  intros CHAT_MAP env.
  apply (resolveTelegramRoute_mapped CHAT_MAP env "B2" (Int 555)).
  - discriminate.
  - reflexivity.
Defined.

(** A code that is neither a key of the map nor a name inherited from
    [Object.prototype] resolves to the default chat id. *)
Lemma resolveTelegramRoute_unmapped (CHAT_MAP : gmap string number)
    (env : gmap string string) (propertyCode : string) :
  propertyCode <> "ALL" ->
  CHAT_MAP !! propertyCode = None ->
  inherited propertyCode = false ->
  resolveTelegramRoute CHAT_MAP env propertyCode
  = {| botToken := env !! "TELEGRAM_DEFAULT_BOT_TOKEN";
       chatId := VNumber (default_chat_id env) |}.
Proof.
  intros Hne Hin Hinh. unfold resolveTelegramRoute, chat_map_get.
  apply String.eqb_neq in Hne. rewrite Hne, Hin, Hinh. reflexivity.
Qed.

Lemma default_chat_id_unset (env : gmap string string) :
  env !! "TELEGRAM_DEFAULT_CHAT_ID" = None -> default_chat_id env = Int 0.
Proof. intros H. unfold default_chat_id, env_get. rewrite H. reflexivity. Qed.

(** C5 at the property code "constructor": the code is no key of the parsed
    map, and the route carries the member the map object inherits under
    that name instead of the default chat id 999. *)
Theorem resolveTelegramRoute_constructor :
  let env : gmap string string := {[ "TELEGRAM_DEFAULT_CHAT_ID" := "999" ]} in
  parseChatMap env = Return ∅
  /\ (∅ : gmap string number) !! "constructor" = None
  /\ default_chat_id env = Int 999
  /\ resolveTelegramRoute ∅ env "constructor"
     = {| botToken := None; chatId := VInherited "constructor" |}.
Proof. cbv zeta. repeat split; vm_compute; reflexivity. Qed.

(** ** The mail module *)

Lemma createTransport_missing (env : gmap string string) :
  smtp_missing env -> createTransport env = Throw (Error "SMTP env missing").
Proof.
  unfold smtp_missing, createTransport. intros [H|[H|H]]; rewrite H;
    rewrite ?orb_true_r; reflexivity.
Qed.

Lemma createTransport_present (env : gmap string string) :
  ~ smtp_missing env ->
  createTransport env
  = Return {| host := default "" (env !! "SMTP_HOST");
              port := Number (or_else (env_get env "SMTP_PORT") (VNumber (Int 587)));
              secure := Num.strict_eq
                          (Number (or_else (env_get env "SMTP_PORT") (VNumber (Int 587))))
                          (Int 465);
              auth_user := default "" (env !! "SMTP_USER");
              auth_pass := default "" (env !! "SMTP_PASS") |}.
Proof.
  unfold smtp_missing, createTransport. intros H.
  destruct (falsy_string (env !! "SMTP_HOST")); [tauto|].
  destruct (falsy_string (env !! "SMTP_USER")); [tauto|].
  destruct (falsy_string (env !! "SMTP_PASS")); [tauto|].
  reflexivity.
Qed.

Lemma smtp_missing_dec (env : gmap string string) : smtp_missing env \/ ~ smtp_missing env.
Proof.
  unfold smtp_missing.
  destruct (falsy_string (env !! "SMTP_HOST")); [tauto|].
  destruct (falsy_string (env !! "SMTP_USER")); [tauto|].
  destruct (falsy_string (env !! "SMTP_PASS")); [tauto|].
  right. intros [H|[H|H]]; discriminate.
Qed.

(** What a call of [sendGuestEmail] does, by the outcome of building the
    transport from the environment of that call. *)
Lemma sendGuestEmail_run (arg : list (string * value)) (w : World) (tr : list event) :
  sendGuestEmail arg w tr
  = match createTransport (env w) with
    | Throw e => (Throw e, tr)
    | Return t =>
        let m := {| from := or_else (env_get (env w) "SMTP_FROM") (env_get (env w) "SMTP_USER");
                    to := obj_get arg "to";
                    subject := obj_get arg "subject";
                    html := obj_get arg "html";
                    text := obj_get arg "text" |} in
        (sendMail_reply w t m, (tr ++ [ESendMail t m])%list)
    end.
Proof.
  unfold sendGuestEmail, bind, ask, lift, emit. simpl.
  destruct (createTransport (env w)); reflexivity.
Qed.

(** C8. Building the transport throws exactly when the host, the user or
    the password is missing from the environment.  The check is made by
    each call of [sendGuestEmail], on the environment of that call: the call
    throws that error before anything is sent exactly when one of the three
    is missing then, and otherwise hands the message to the transport it
    has built. *)
Theorem sendGuestEmail_checks_env :
  (forall env : gmap string string,
      createTransport env = Throw (Error "SMTP env missing") <-> smtp_missing env)
  /\ (forall (arg : list (string * value)) (w : World) (tr : list event),
         (sendGuestEmail arg w tr = (Throw (Error "SMTP env missing"), tr)
          <-> smtp_missing (env w))
         /\ (~ smtp_missing (env w) ->
             exists t m, createTransport (env w) = Return t
                         /\ sendGuestEmail arg w tr
                            = (sendMail_reply w t m, (tr ++ [ESendMail t m])%list))).
Proof.
  split.
  - intros env. split.
    + intros H. destruct (smtp_missing_dec env) as [Hm|Hm]; [exact Hm|].
      rewrite (createTransport_present env Hm) in H. discriminate.
    + apply createTransport_missing.
  - intros arg w tr. rewrite sendGuestEmail_run. split; [split|].
    + intros H. destruct (smtp_missing_dec (env w)) as [Hm|Hm]; [exact Hm|].
      rewrite (createTransport_present _ Hm) in H. cbv zeta in H.
      inversion H as [[Hreply Htr]]. symmetry in Htr.
      exfalso. revert Htr. rewrite <- (app_nil_r tr) at 1. intros Htr.
      apply app_inv_head in Htr. discriminate.
    + intros Hm. rewrite (createTransport_missing _ Hm). reflexivity.
    + intros Hm. rewrite (createTransport_present _ Hm). eauto.
Qed.

Lemma sendGuestEmail_checks_env_witness :
  let w := {| env := {[ "SMTP_HOST" := "smtp.example.com"; "SMTP_USER" := "desk";
                        "SMTP_PASS" := "secret" ]};
              fetch_reply := fun _ _ => Throw (TypeError "fetch failed");
              sendMail_reply := fun _ _ => Return tt |} in
  exists t m, createTransport (env w) = Return t
              /\ sendGuestEmail [("to", VString "jane@example.com")] w []
                 = (sendMail_reply w t m, ([] ++ [ESendMail t m])%list).
Proof.
  intros w.
  apply (proj2 (proj2 sendGuestEmail_checks_env [("to", VString "jane@example.com")] w [])).
  intros [H|[H|H]]; vm_compute in H; discriminate.
Defined.

(** C9. The transport is built with the port read from the environment,
    587 when no port is configured, and is marked secure exactly when that
    port equals 465. *)
Theorem createTransport_port_secure (env : gmap string string) (t : TransportOptions) :
  createTransport env = Return t ->
  port t = Number (or_else (env_get env "SMTP_PORT") (VNumber (Int 587)))
  /\ (falsy_string (env !! "SMTP_PORT") = true -> port t = Int 587)
  /\ (secure t = true <-> number_is (port t) 465).
Proof.
  intros H. destruct (smtp_missing_dec env) as [Hm|Hm].
  - rewrite (createTransport_missing env Hm) in H. discriminate.
  - rewrite (createTransport_present env Hm) in H. inversion H; subst; clear H. simpl.
    split; [reflexivity|]. split.
    + unfold env_get. destruct (env !! "SMTP_PORT") as [s|]; simpl.
      * intros Hs. destruct s; [reflexivity|discriminate].
      * reflexivity.
    + unfold number_is, Num.strict_eq, Int.
      destruct (Number _) as [| |q]; split.
      * discriminate.
      * intros (q & Hq & _). discriminate.
      * discriminate.
      * intros (q & Hq & _). discriminate.
      * intros Hq. exists q. split; [reflexivity|]. apply Qeq_bool_iff. exact Hq.
      * intros (q' & Hq' & Heq). inversion Hq'; subst. apply Qeq_bool_iff. exact Heq.
Qed.

Lemma createTransport_port_secure_witness :
  let env : gmap string string :=
    {[ "SMTP_HOST" := "smtp.example.com"; "SMTP_PORT" := "465";
       "SMTP_USER" := "desk"; "SMTP_PASS" := "secret" ]} in
  let t := {| host := "smtp.example.com"; port := Int 465; secure := true;
              auth_user := "desk"; auth_pass := "secret" |} in
  port t = Number (or_else (env_get env "SMTP_PORT") (VNumber (Int 587)))
  /\ (falsy_string (env !! "SMTP_PORT") = true -> port t = Int 587)
  /\ (secure t = true <-> number_is (port t) 465).
Proof.
  intros env t. apply (createTransport_port_secure env t). vm_compute. reflexivity.
Defined.

(** ** The chat sender *)

(** The outcome of a send whose reply is not the JSON value null, or whose
    status is not in 200-299: an error with the status and the description
    (the status text when the description is absent or falsy) unless the
    status is in 200-299 and the reply's ok is true. *)
Lemma telegramSendText_outcome (a : TelegramText) (w : World) (tr : list event) (resp : Response) :
  replies_with w resp ->
  json_body resp <> Some JNull \/ resp_ok resp = false ->
  let data := match json_body resp with Some j => j | None => JObject [] end in
  let desc := match json_get "description" data with
              | Some d => if json_truthy d then json_to_string d else statusText resp
              | None => statusText resp
              end in
  fst (telegramSendText a w tr)
  = if resp_ok resp && match json_get "ok" data with Some (JBool true) => true | _ => false end
    then Return data
    else Throw (Error ("Telegram failed: " ++ Z_to_string (status resp) ++ " " ++ desc)).
Proof.
  intros Hw Hnull data desc. unfold telegramSendText, bind, emit, ask, lift.
  rewrite Hw. fold data. fold desc.
  destruct (resp_ok resp) eqn:Hok; simpl.
  - assert (Hd : data <> JNull).
    { destruct Hnull as [Hn|Hn]; [|discriminate]. subst data.
      destruct (json_body resp) as [j|]; [|discriminate]. congruence. }
    destruct data as [|b|z|s|l|f] eqn:Ed; try congruence; unfold ret; simpl;
      try reflexivity.
    destruct (assoc "ok" f) as [[|[|]| | | |]|]; reflexivity.
  - reflexivity.
Qed.

(** C7 at the reply with status 200 and the JSON body null: the sender
    throws, and the error is the TypeError of reading a property of null;
    its message carries neither the status nor the status text. *)
Theorem telegramSendText_null_body (a : TelegramText) (w : World) (tr : list event) :
  replies_with w {| status := 200; statusText := "OK"; json_body := Some JNull |} ->
  fst (telegramSendText a w tr)
  = Throw (TypeError "Cannot read properties of null (reading 'ok')").
Proof.
  intros Hw. unfold telegramSendText, bind, emit, ask, lift. rewrite Hw. reflexivity.
Qed.

Lemma telegramSendText_null_body_witness :
  let w := {| env := ∅;
              fetch_reply := fun _ _ =>
                Return {| status := 200; statusText := "OK"; json_body := Some JNull |};
              sendMail_reply := fun _ _ => Return tt |} in
  fst (telegramSendText {| tt_botToken := Some "tok"; tt_chatId := VNumber (Int 555);
                           tt_text := "hello" |} w [])
  = Throw (TypeError "Cannot read properties of null (reading 'ok')").
Proof.
  intros w. apply (telegramSendText_null_body _ w []). intros url init. reflexivity.
Defined.

(** ** The schema *)

Lemma zod_string_ok key checks v s :
  zod_string key checks v = ([], s) -> v = Some (JString s) /\ checks s = [].
Proof.
  unfold zod_string. destruct v as [[]|]; intros H; inversion H; subst; auto.
Qed.

Lemma zod_min_ok key n s : zod_min key n s = [] -> (n <= String.length s)%nat.
Proof.
  unfold zod_min. destruct (String.length s <? n)%nat eqn:E; [discriminate|].
  intros _. apply Nat.ltb_ge in E. exact E.
Qed.

Lemma email_check_ok is_email key s : email_check is_email key s = [] -> is_email s = true.
Proof. unfold email_check. destruct (is_email s); [reflexivity|discriminate]. Qed.

(** A payload the schema accepts has every required field, each a string
    of its minimum length, and an email of the accepted format. *)
Lemma BookingSchema_parse_Return is_email format_issues body data :
  BookingSchema_parse is_email format_issues body = Return data ->
  (forall k n, In (k, n) min_length_fields ->
     exists s, json_get k body = Some (JString s) /\ (n <= String.length s)%nat)
  /\ json_get "email" body = Some (JString (email data))
  /\ is_email (email data) = true.
Proof.
  unfold BookingSchema_parse. destruct body as [| | | | |fields]; try discriminate.
  destruct (zod_string "propertyCode" _ _) as [i1 v1] eqn:E1.
  destruct (zod_string "roomId" _ _) as [i2 v2] eqn:E2.
  destruct (zod_string "guestName" _ _) as [i3 v3] eqn:E3.
  destruct (zod_string "phone" _ _) as [i4 v4] eqn:E4.
  destruct (zod_string "email" _ _) as [i5 v5] eqn:E5.
  destruct (zod_string "checkIn" _ _) as [i6 v6] eqn:E6.
  destruct (zod_string "checkOut" _ _) as [i7 v7] eqn:E7.
  destruct (zod_optional_string "note" _) as [i8 v8] eqn:E8.
  destruct i1; [|discriminate]. destruct i2; [|discriminate].
  destruct i3; [|discriminate]. destruct i4; [|discriminate].
  destruct i5; [|discriminate]. destruct i6; [|discriminate].
  destruct i7; [|discriminate]. destruct i8; [|discriminate].
  intros H. inversion H; subst; clear H. simpl email.
  apply zod_string_ok in E1 as [F1 C1], E2 as [F2 C2], E3 as [F3 C3], E4 as [F4 C4],
    E5 as [F5 C5], E6 as [F6 C6], E7 as [F7 C7].
  apply zod_min_ok in C1, C2, C3, C4, C6, C7. apply email_check_ok in C5.
  split; [|split; assumption].
  intros k n Hin. simpl in Hin.
  destruct Hin as [Hin|[Hin|[Hin|[Hin|[Hin|[Hin|[]]]]]]]; inversion Hin; subst; eauto.
Qed.

(** What the schema throws is a [ZodError] with at least one issue. *)
Lemma BookingSchema_parse_Throw is_email format_issues body e :
  BookingSchema_parse is_email format_issues body = Throw e ->
  exists issues, issues <> [] /\ e = ZodError format_issues issues.
Proof.
  unfold BookingSchema_parse.
  destruct body as [| | | | |fields];
    try (intros H; inversion H; eexists; split; [|reflexivity]; discriminate).
  destruct (zod_string "propertyCode" _ _) as [i1 v1].
  destruct (zod_string "roomId" _ _) as [i2 v2].
  destruct (zod_string "guestName" _ _) as [i3 v3].
  destruct (zod_string "phone" _ _) as [i4 v4].
  destruct (zod_string "email" _ _) as [i5 v5].
  destruct (zod_string "checkIn" _ _) as [i6 v6].
  destruct (zod_string "checkOut" _ _) as [i7 v7].
  destruct (zod_optional_string "note" _) as [i8 v8].
  destruct (i1 ++ i2 ++ i3 ++ i4 ++ i5 ++ i6 ++ i7 ++ i8)%list as [|i l]; [discriminate|].
  intros H. inversion H. exists (i :: l). split; [discriminate|reflexivity].
Qed.

Lemma violates_not_accepted is_email format_issues body data :
  violates_BookingRequest is_email body ->
  BookingSchema_parse is_email format_issues body <> Return data.
Proof.
  intros Hv Hp. apply BookingSchema_parse_Return in Hp as (Hmin & Hmail & Hfmt).
  destruct Hv as [(k & n & Hin & Hk)|[Hm|(s & Hs & He)]].
  - destruct (Hmin k n Hin) as (s & Hs & Hlen).
    destruct Hk as [Hk|(s' & Hs' & Hshort)].
    + unfold missing_field in Hk. congruence.
    + rewrite Hs in Hs'. inversion Hs'; subst. lia.
  - unfold missing_field in Hm. congruence.
  - rewrite Hmail in Hs. inversion Hs; subst. congruence.
Qed.

(** ** The handler *)

Lemma POST_parse_Throw is_email format_issues sendTelegramMessage CHAT_MAP body e w tr :
  BookingSchema_parse is_email format_issues body = Throw e ->
  POST is_email format_issues sendTelegramMessage CHAT_MAP (Return body) w tr
  = (Return {| http_status := 400; ok := false; error := Some (error_text e) |},
     (tr ++ [ELog e])%list).
Proof.
  intros H. unfold POST, try_catch, bind, lift, emit, ret. rewrite H. reflexivity.
Qed.

Lemma notifications_log tr e : notifications (tr ++ [ELog e]) = notifications tr.
Proof.
  unfold notifications. rewrite List.filter_app. simpl. apply app_nil_r.
Qed.

(** C1. For every payload that misses a required field or violates a
    minimum-length or format constraint, the handler answers with status
    400, ok false and the text of the validation error (its message when
    that is not empty), logs the error, and makes no chat or mail call. *)
Theorem POST_rejects_invalid (is_email : string -> bool)
    (format_issues : list ZodIssue -> string)
    (sendTelegramMessage : NotificationRoute -> string -> M unit)
    (CHAT_MAP : gmap string number) (body : json) (w : World) (tr : list event) :
  violates_BookingRequest is_email body ->
  exists issues,
    issues <> []
    /\ BookingSchema_parse is_email format_issues body = Throw (ZodError format_issues issues)
    /\ fst (POST is_email format_issues sendTelegramMessage CHAT_MAP (Return body) w tr)
       = Return {| http_status := 400; ok := false;
                   error := Some (error_text (ZodError format_issues issues)) |}
    /\ (format_issues issues <> "" ->
        error_text (ZodError format_issues issues) = format_issues issues)
    /\ snd (POST is_email format_issues sendTelegramMessage CHAT_MAP (Return body) w tr)
       = (tr ++ [ELog (ZodError format_issues issues)])%list
    /\ notifications (snd (POST is_email format_issues sendTelegramMessage CHAT_MAP (Return body) w tr))
       = notifications tr.
Proof.
  intros Hv.
  destruct (BookingSchema_parse is_email format_issues body) as [data|e] eqn:Hp.
  - exfalso. exact (violates_not_accepted _ _ _ _ Hv Hp).
  - destruct (BookingSchema_parse_Throw _ _ _ _ Hp) as (issues & Hne & ->).
    exists issues. rewrite (POST_parse_Throw _ _ _ _ _ _ _ _ Hp). simpl fst. simpl snd.
    repeat split; try assumption.
    + unfold error_text, ZodError. simpl. intros Hm.
      destruct (format_issues issues); [congruence|reflexivity].
    + apply notifications_log.
Qed.

Lemma POST_rejects_invalid_witness :
  let is_email := fun _ : string => true in
  let format_issues := fun _ : list ZodIssue => "invalid" in
  let send := fun (_ : NotificationRoute) (_ : string) => ret tt in
  let body := JObject [("propertyCode", JString "B2")] in
  let w := {| env := ∅;
              fetch_reply := fun _ _ => Throw (TypeError "fetch failed");
              sendMail_reply := fun _ _ => Return tt |} in
  exists issues,
    issues <> []
    /\ BookingSchema_parse is_email format_issues body = Throw (ZodError format_issues issues)
    /\ fst (POST is_email format_issues send ∅ (Return body) w [])
       = Return {| http_status := 400; ok := false;
                   error := Some (error_text (ZodError format_issues issues)) |}
    /\ (format_issues issues <> "" ->
        error_text (ZodError format_issues issues) = format_issues issues)
    /\ snd (POST is_email format_issues send ∅ (Return body) w [])
       = ([] ++ [ELog (ZodError format_issues issues)])%list
    /\ notifications (snd (POST is_email format_issues send ∅ (Return body) w []))
       = notifications [].
Proof.
  intros is_email format_issues send body w.
  apply (POST_rejects_invalid is_email format_issues send ∅ body w []).
  left. exists "propertyCode", 3%nat. split.
  - simpl. auto.
  - right. exists "B2". split; [reflexivity | simpl; lia].
Defined.

(** C2. For a payload the schema accepts, when the chat-bot API answers
    with status 200 and the body {ok: false, description: "chat not found"},
    the handler (sending through the chat sender) answers with ok false and
    the error "Telegram failed: 200 chat not found"; the trace grows by the
    one call to the API and the log entry, so no mail is sent. *)
Theorem POST_chat_not_found (is_email : string -> bool)
    (format_issues : list ZodIssue -> string) (CHAT_MAP : gmap string number)
    (body : json) (data : Booking) (w : World) (tr : list event) (st : string) :
  BookingSchema_parse is_email format_issues body = Return data ->
  replies_with w {| status := 200; statusText := st; json_body := Some chat_not_found |} ->
  let route := resolveTelegramRoute CHAT_MAP (env w) (propertyCode data) in
  let call := EFetch (telegram_url (botToken route))
                (telegram_init (chatId route) (booking_message data)) in
  POST is_email format_issues sendTelegramMessage_spec CHAT_MAP (Return body) w tr
  = (Return {| http_status := 400; ok := false;
               error := Some "Telegram failed: 200 chat not found" |},
     (tr ++ [call; ELog (Error "Telegram failed: 200 chat not found")])%list)
  /\ notifications
       (snd (POST is_email format_issues sendTelegramMessage_spec CHAT_MAP (Return body) w tr))
     = (notifications tr ++ [call])%list.
Proof.
  intros Hp Hw route call.
  assert (Hrun : POST is_email format_issues sendTelegramMessage_spec CHAT_MAP (Return body) w tr
                 = (Return {| http_status := 400; ok := false;
                              error := Some "Telegram failed: 200 chat not found" |},
                    (tr ++ [call; ELog (Error "Telegram failed: 200 chat not found")])%list)).
  { unfold POST, try_catch, bind, lift, ask, ret, sendTelegramMessage_spec, telegramSendText,
      bind, emit, ask, lift, throw.
    rewrite Hp, Hw. simpl. rewrite <- List.app_assoc. reflexivity. }
  rewrite Hrun. split; [reflexivity|].
  unfold notifications. simpl snd. rewrite List.filter_app. reflexivity.
Qed.

Lemma POST_chat_not_found_witness :
  let is_email := fun _ : string => true in
  let format_issues := fun _ : list ZodIssue => "invalid" in
  let CHAT_MAP : gmap string number := {[ "B2x" := Int 555 ]} in
  let body := JObject [ ("propertyCode", JString "B2x"); ("roomId", JString "101");
                        ("guestName", JString "Jane Doe"); ("phone", JString "+15551234567");
                        ("email", JString "jane@example.com");
                        ("checkIn", JString "2024-06-01"); ("checkOut", JString "2024-06-05");
                        ("note", JString "") ] in
  let data := mkBooking "B2x" "101" "Jane Doe" "+15551234567" "jane@example.com"
                "2024-06-01" "2024-06-05" "" in
  let w := {| env := {[ "TELEGRAM_DEFAULT_BOT_TOKEN" := "tok" ]};
              fetch_reply := fun _ _ =>
                Return {| status := 200; statusText := "OK";
                          json_body := Some chat_not_found |};
              sendMail_reply := fun _ _ => Return tt |} in
  let route := resolveTelegramRoute CHAT_MAP (env w) (propertyCode data) in
  let call := EFetch (telegram_url (botToken route))
                (telegram_init (chatId route) (booking_message data)) in
  POST is_email format_issues sendTelegramMessage_spec CHAT_MAP (Return body) w []
  = (Return {| http_status := 400; ok := false;
               error := Some "Telegram failed: 200 chat not found" |},
     ([] ++ [call; ELog (Error "Telegram failed: 200 chat not found")])%list)
  /\ notifications
       (snd (POST is_email format_issues sendTelegramMessage_spec CHAT_MAP (Return body) w []))
     = (notifications [] ++ [call])%list.
Proof.
  intros is_email format_issues CHAT_MAP body data w.
  apply (POST_chat_not_found is_email format_issues CHAT_MAP body data w [] "OK").
  - reflexivity.
  - intros url init. reflexivity.
Defined.

Lemma createTransport_user (env : gmap string string) (t : TransportOptions) :
  createTransport env = Return t -> truthy (env_get env "SMTP_USER") = true.
Proof.
  intros H. destruct (smtp_missing_dec env) as [Hm|Hm].
  - rewrite (createTransport_missing env Hm) in H. discriminate.
  - unfold smtp_missing in Hm. unfold env_get.
    destruct (env !! "SMTP_USER") as [u|]; simpl in *.
    + destruct (Str.is_empty u); [tauto|reflexivity].
    + tauto.
Qed.

(** C10. For every booking the schema accepts, once the chat send has
    returned and the transport is built, the message the handler's call of
    [sendGuestEmail] hands to the transport has undefined subject, html and
    text; its recipient is the guest's email and its sender the configured
    address; no other notification follows. *)
Theorem POST_guest_email_fields (is_email : string -> bool)
    (format_issues : list ZodIssue -> string)
    (sendTelegramMessage : NotificationRoute -> string -> M unit)
    (CHAT_MAP : gmap string number) (body : json) (data : Booking)
    (w : World) (tr tr1 : list event) (t : TransportOptions) :
  BookingSchema_parse is_email format_issues body = Return data ->
  sendTelegramMessage (resolveTelegramRoute CHAT_MAP (env w) (propertyCode data))
    (booking_message data) w tr = (Return tt, tr1) ->
  createTransport (env w) = Return t ->
  exists m rest,
    snd (POST is_email format_issues sendTelegramMessage CHAT_MAP (Return body) w tr)
    = (tr1 ++ ESendMail t m :: rest)%list
    /\ notifications rest = []
    /\ subject m = VUndefined /\ html m = VUndefined /\ text m = VUndefined
    /\ to m = VString (email data)
    /\ from m = or_else (env_get (env w) "SMTP_FROM") (env_get (env w) "SMTP_USER")
    /\ truthy (from m) = true.
Proof.
  intros Hp Hs Ht.
  unfold POST, try_catch, bind at 1 2 3 4, lift at 1 2, ask at 1, ret at 1.
  rewrite Hp. cbv beta iota. rewrite Hs.
  unfold bind at 1. rewrite sendGuestEmail_run, Ht. cbv zeta.
  match goal with |- context [ESendMail t ?m] => set (msg := m) end.
  assert (Hfrom : truthy (from msg) = true).
  { subst msg. simpl. unfold or_else.
    destruct (truthy (env_get (env w) "SMTP_FROM")) eqn:E; [exact E|].
    exact (createTransport_user _ _ Ht). }
  destruct (sendMail_reply w t msg) as [[]|e]; simpl.
  - exists msg, []. repeat split; try reflexivity. exact Hfrom.
  - exists msg, [ELog e]. unfold emit, bind, ret. simpl. rewrite <- List.app_assoc. simpl.
    repeat split; try reflexivity. exact Hfrom.
Qed.

Lemma POST_guest_email_fields_witness :
  let is_email := fun _ : string => true in
  let format_issues := fun _ : list ZodIssue => "invalid" in
  let send := fun (_ : NotificationRoute) (_ : string) => @ret unit tt in
  let body := JObject [ ("propertyCode", JString "B2x"); ("roomId", JString "101");
                        ("guestName", JString "Jane Doe"); ("phone", JString "+15551234567");
                        ("email", JString "jane@example.com");
                        ("checkIn", JString "2024-06-01"); ("checkOut", JString "2024-06-05") ] in
  let data := mkBooking "B2x" "101" "Jane Doe" "+15551234567" "jane@example.com"
                "2024-06-01" "2024-06-05" "" in
  let w := {| env := {[ "SMTP_HOST" := "smtp.example.com"; "SMTP_USER" := "desk";
                        "SMTP_PASS" := "secret" ]};
              fetch_reply := fun _ _ => Throw (TypeError "fetch failed");
              sendMail_reply := fun _ _ => Return tt |} in
  let t := {| host := "smtp.example.com"; port := Int 587; secure := false;
              auth_user := "desk"; auth_pass := "secret" |} in
  exists m rest,
    snd (POST is_email format_issues send ∅ (Return body) w [])
    = ([] ++ ESendMail t m :: rest)%list
    /\ notifications rest = []
    /\ subject m = VUndefined /\ html m = VUndefined /\ text m = VUndefined
    /\ to m = VString (email data)
    /\ from m = or_else (env_get (env w) "SMTP_FROM") (env_get (env w) "SMTP_USER")
    /\ truthy (from m) = true.
Proof.
  intros is_email format_issues send body data w t.
  apply (POST_guest_email_fields is_email format_issues send ∅ body data w [] [] t).
  - reflexivity.
  - reflexivity.
  - vm_compute. reflexivity.
Defined.

(** * Further properties *)

(** ** Trimming *)

Lemma trimStart_app_sep c a b :
  Str.is_ws c = false -> Str.trimStart (a ++ String c b) = Str.trimStart a ++ String c b.
Proof.
  intros Hc. induction a as [|d a IH]; simpl.
  - rewrite Hc. reflexivity.
  - destruct (Str.is_ws d); [exact IH | reflexivity].
Qed.

Lemma trimEnd_app_sep c a b :
  Str.is_ws c = false -> Str.trimEnd (a ++ String c b) = a ++ String c (Str.trimEnd b).
Proof.
  intros Hc. induction a as [|d a IH]; simpl.
  - rewrite Hc. destruct (Str.trimEnd b); reflexivity.
  - rewrite IH. destruct a; reflexivity.
Qed.

Lemma trimStart_idem s : Str.trimStart (Str.trimStart s) = Str.trimStart s.
Proof.
  induction s as [|d s IH]; simpl; [reflexivity|].
  destruct (Str.is_ws d) eqn:Hd; [exact IH|]. simpl. rewrite Hd. reflexivity.
Qed.

Lemma trimEnd_cons d s :
  Str.trimEnd (String d s)
  = match Str.trimEnd s with
    | EmptyString => if Str.is_ws d then EmptyString else String d EmptyString
    | String x y => String d (String x y)
    end.
Proof. reflexivity. Qed.

Lemma trimEnd_idem s : Str.trimEnd (Str.trimEnd s) = Str.trimEnd s.
Proof.
  induction s as [|d s IH]; [reflexivity|].
  rewrite trimEnd_cons. destruct (Str.trimEnd s) as [|e t] eqn:E.
  - destruct (Str.is_ws d) eqn:Hd; [reflexivity|]. rewrite trimEnd_cons. simpl.
    rewrite Hd. reflexivity.
  - rewrite trimEnd_cons, IH. reflexivity.
Qed.

Lemma trimStart_trimEnd s : Str.trimStart (Str.trimEnd s) = Str.trimEnd (Str.trimStart s).
Proof.
  induction s as [|d s IH]; [reflexivity|].
  rewrite trimEnd_cons. simpl Str.trimStart at 2.
  destruct (Str.is_ws d) eqn:Hd.
  - rewrite <- IH. destruct (Str.trimEnd s) as [|e t]; simpl; [reflexivity|].
    rewrite Hd. reflexivity.
  - rewrite trimEnd_cons, Hd. destruct (Str.trimEnd s); simpl; rewrite Hd; reflexivity.
Qed.

Lemma trim_idem s : Str.trim (Str.trim s) = Str.trim s.
Proof.
  unfold Str.trim. rewrite trimStart_trimEnd, trimStart_idem, trimEnd_idem. reflexivity.
Qed.

Lemma trim_trimStart s : Str.trim (Str.trimStart s) = Str.trim s.
Proof. unfold Str.trim. rewrite trimStart_idem. reflexivity. Qed.

Lemma trim_trimEnd s : Str.trim (Str.trimEnd s) = Str.trim s.
Proof.
  unfold Str.trim. rewrite trimStart_trimEnd, trimEnd_idem. reflexivity.
Qed.

Lemma of_string_trim s : Num.of_string (Str.trim s) = Num.of_string s.
Proof. unfold Num.of_string. rewrite trim_idem. reflexivity. Qed.

Lemma is_empty_false_app a c b : Str.is_empty (a ++ String c b) = false.
Proof. destruct a; reflexivity. Qed.

Lemma includes_app_sep c a b : Str.includes c (a ++ String c b) = true.
Proof.
  induction a as [|d a IH]; simpl.
  - rewrite Ascii.eqb_refl. reflexivity.
  - rewrite IH. apply orb_true_r.
Qed.

(** ** Entries of the configuration string *)

(** What the loop does with an entry that has a colon after a colon-free
    code: the key is the trimmed code, the value is read from the piece up
    to the next colon. *)
Lemma parseChatMap_step_colon map code after :
  colon_free code ->
  parseChatMap_step map (code ++ String ":" after)
  = Return (chat_map_set map (Str.trim code)
              (Num.of_string (fst (Str.split_pieces ":" (Str.trimEnd after))))).
Proof.
  intros Hc. unfold parseChatMap_step.
  assert (Ht : Str.trim (code ++ String ":" after)
               = Str.trimStart code ++ String ":" (Str.trimEnd after)).
  { unfold Str.trim. rewrite trimStart_app_sep, trimEnd_app_sep by reflexivity. reflexivity. }
  rewrite Ht, is_empty_false_app, includes_app_sep. simpl orb. cbv iota.
  unfold Str.split. rewrite split_pieces_comma_free.
  2:{ rewrite includes_trimStart by reflexivity. exact Hc. }
  unfold Str.split. destruct (Str.split_pieces ":" (Str.trimEnd after)) as [h t].
  rewrite trim_trimStart. simpl. rewrite of_string_trim. reflexivity.
Qed.

Lemma parseChatMap_step_two_pieces (map : gmap string number) (code chat : string) :
  colon_free code ->
  colon_free chat ->
  parseChatMap_step map (code ++ String ":" chat)
  = Return (chat_map_set map (Str.trim code) (Number (VString chat))).
Proof.
  intros Hc Hv. rewrite parseChatMap_step_colon by exact Hc.
  rewrite split_pieces_no_sep.
  2:{ unfold colon_free in Hv. rewrite includes_trimEnd by reflexivity. exact Hv. }
  simpl. rewrite <- of_string_trim, trim_trimEnd, of_string_trim. reflexivity.
Qed.

(** X1. An entry "code:chat" whose two sides have no colon is stored under
    the trimmed code with the value [Number(chat)]: white space around the
    entry, the code or the chat id does not matter. *)
Theorem parseChatMap_step_pair (map : gmap string number) (code chat : string) :
  colon_free code ->
  colon_free chat ->
  parseChatMap_step map (code ++ ":" ++ chat)
  = Return (chat_map_set map (Str.trim code) (Number (VString chat))).
Proof.
  intros Hc Hv. change (code ++ ":" ++ chat) with (code ++ String ":" chat).
  rewrite parseChatMap_step_colon by exact Hc.
  assert (Hpiece : fst (Str.split_pieces ":" (Str.trimEnd chat)) = Str.trimEnd chat).
  { rewrite split_pieces_no_sep; [reflexivity|].
    rewrite includes_trimEnd by reflexivity. exact Hv. }
  rewrite Hpiece. f_equal. f_equal. simpl.
  rewrite <- (of_string_trim chat), <- (trim_trimEnd chat). symmetry. apply of_string_trim.
Qed.

Lemma parseChatMap_step_pair_witness :
  parseChatMap_step ∅ (" A " ++ ":" ++ " 111 ")
  = Return (chat_map_set ∅ (Str.trim " A ") (Number (VString " 111 "))).
Proof. apply (parseChatMap_step_pair ∅ " A " " 111 "); reflexivity. Defined.

(** X2. In an entry with more than one colon only the first two pieces
    count: whatever follows the second colon is ignored. *)
Theorem parseChatMap_step_extra_pieces (map : gmap string number) (code chat rest : string) :
  colon_free code ->
  colon_free chat ->
  parseChatMap_step map (code ++ ":" ++ chat ++ ":" ++ rest)
  = parseChatMap_step map (code ++ ":" ++ chat).
Proof.
  intros Hc Hv. change (code ++ ":" ++ chat) with (code ++ String ":" chat).
  rewrite (parseChatMap_step_two_pieces map code chat Hc Hv).
  change (code ++ ":" ++ chat ++ ":" ++ rest) with (code ++ String ":" (chat ++ String ":" rest)).
  rewrite parseChatMap_step_colon by exact Hc.
  rewrite trimEnd_app_sep by reflexivity.
  rewrite split_pieces_comma_free by exact Hv. reflexivity.
Qed.

Lemma parseChatMap_step_extra_pieces_witness :
  parseChatMap_step ∅ ("A" ++ ":" ++ "111" ++ ":" ++ "222")
  = parseChatMap_step ∅ ("A" ++ ":" ++ "111").
Proof. apply (parseChatMap_step_extra_pieces ∅ "A" "111" "222"); reflexivity. Defined.

Lemma parseChatMap_loop_app before after : forall map,
  parseChatMap_loop map (before ++ after)
  = cbind (parseChatMap_loop map before) (fun map' => parseChatMap_loop map' after).
Proof.
  induction before as [|p before IH]; intros map; simpl; [reflexivity|].
  destruct (parseChatMap_step map p); simpl; [apply IH | reflexivity].
Qed.

Lemma includes_app c a b : Str.includes c (a ++ b) = Str.includes c a || Str.includes c b.
Proof.
  induction a as [|d a IH]; simpl; [reflexivity|]. rewrite IH. apply orb_assoc.
Qed.

Lemma comma_free_pair code chat :
  comma_free code -> comma_free chat -> comma_free (code ++ ":" ++ chat).
Proof.
  unfold comma_free. intros Hc Hv. rewrite includes_app, Hc. simpl. exact Hv.
Qed.

(** X3. The last entry for a code wins: when the configuration string ends
    with the entry "code:chat", the parsed map holds [Number(chat)] under
    the trimmed code, whatever the earlier entries say. *)
Theorem parseChatMap_last_entry (env : gmap string string) (entries : list string)
    (code chat : string) :
  Forall comma_free entries ->
  comma_free code -> comma_free chat ->
  colon_free code -> colon_free chat ->
  Str.trim code <> "__proto__" ->
  exists map,
    parseChatMap (<["TELEGRAM_PROPERTY_CHAT_MAP" :=
                      Str.join "," (entries ++ [code ++ ":" ++ chat])]> env)
    = Return map
    /\ map !! Str.trim code = Some (Number (VString chat)).
Proof.
  intros He Hc1 Hv1 Hc2 Hv2 Hk.
  rewrite parseChatMap_insert, parseChatMap_raw_join.
  2:{ apply Forall_app. split; [exact He|]. constructor; [|constructor].
      apply comma_free_pair; assumption. }
  rewrite parseChatMap_loop_app.
  destruct (parseChatMap_loop_returns entries ∅) as [m ->].
  change (code ++ ":" ++ chat) with (code ++ String ":" chat). simpl.
  rewrite parseChatMap_step_two_pieces by assumption. simpl.
  eexists. split; [reflexivity|].
  unfold chat_map_set. apply String.eqb_neq in Hk. rewrite Hk.
  apply lookup_insert_eq.
Qed.

Lemma parseChatMap_last_entry_witness :
  exists map,
    parseChatMap (<["TELEGRAM_PROPERTY_CHAT_MAP" :=
                      Str.join "," (["A:111"; " B:222"] ++ [" A" ++ ":" ++ "333"])]> ∅)
    = Return map
    /\ map !! Str.trim " A" = Some (Number (VString "333")).
Proof.
  apply (parseChatMap_last_entry ∅ ["A:111"; " B:222"] " A" "333");
    try reflexivity.
  - repeat constructor.
  - discriminate.
Defined.

(** ** Invariants of the parsed map *)

Lemma parseChatMap_loop_invariant (P : gmap string number -> Prop) parts :
  (forall map part map', In part parts -> P map ->
     parseChatMap_step map part = Return map' -> P map') ->
  forall map map', P map -> parseChatMap_loop map parts = Return map' -> P map'.
Proof.
  induction parts as [|p parts IH]; intros Hstep map map' HP; simpl.
  - intros H. inversion H; subst. exact HP.
  - destruct (parseChatMap_step map p) as [m|e] eqn:E; simpl; [|discriminate].
    apply IH.
    + intros m1 part m2 Hin. apply Hstep. right. exact Hin.
    + apply (Hstep map p m); [left; reflexivity | exact HP | exact E].
Qed.

(** X4. The name __proto__ is never a key of the parsed map, whatever the
    configuration string holds. *)
Theorem parseChatMap_no_proto (env : gmap string string) (map : gmap string number) :
  parseChatMap env = Return map -> map !! "__proto__" = None.
Proof.
  unfold parseChatMap, parseChatMap_raw.
  apply (parseChatMap_loop_invariant (fun m => m !! "__proto__" = None)).
  - intros m part m' _ Hm. unfold parseChatMap_step.
    destruct (_ || _); [intros H; inversion H; subst; exact Hm|].
    destruct (Str.split ":" (Str.trim part)) as [|code [|chat l]]; try discriminate.
    intros H. inversion H; subst. unfold chat_map_set.
    destruct (String.eqb (Str.trim code) "__proto__") eqn:E; [exact Hm|].
    apply String.eqb_neq in E. rewrite lookup_insert_ne by exact E. exact Hm.
  - apply lookup_empty.
Qed.

Lemma parseChatMap_no_proto_witness :
  ({[ "A" := Int 111 ]} : gmap string number) !! "__proto__" = None.
Proof.
  apply (parseChatMap_no_proto {[ "TELEGRAM_PROPERTY_CHAT_MAP" := "__proto__:5,A:111" ]}).
  vm_compute. reflexivity.
Defined.

Lemma split_pieces_free c s :
  Str.includes c (fst (Str.split_pieces c s)) = false
  /\ Forall (fun p => Str.includes c p = false) (snd (Str.split_pieces c s)).
Proof.
  induction s as [|d s [IHh IHt]]; simpl; [split; [reflexivity|constructor]|].
  destruct (Str.split_pieces c s) as [h t]. simpl in *.
  destruct (Ascii.eqb d c) eqn:E; simpl.
  - split; [reflexivity|]. constructor; assumption.
  - rewrite E, IHh. split; [reflexivity | exact IHt].
Qed.

Lemma split_free c s p : In p (Str.split c s) -> Str.includes c p = false.
Proof.
  unfold Str.split. destruct (split_pieces_free c s) as [Hh Ht].
  destruct (Str.split_pieces c s) as [h t]. simpl in *.
  intros [<-|Hin]; [exact Hh|].
  rewrite List.Forall_forall in Ht. apply Ht. exact Hin.
Qed.

(** The first piece of a split holds no character the string does not hold. *)
Lemma split_pieces_fst_keeps c c' s :
  Str.includes c' s = false -> Str.includes c' (fst (Str.split_pieces c s)) = false.
Proof.
  induction s as [|d s IH]; simpl; [reflexivity|].
  intros H. apply orb_false_iff in H as [Hd Hs]. specialize (IH Hs).
  destruct (Str.split_pieces c s) as [h t]. simpl in *.
  destruct (Ascii.eqb d c); simpl; [reflexivity|]. rewrite Hd, IH. reflexivity.
Qed.

(** X5. Every key of the parsed map has no white space around it and
    holds neither a colon nor a comma: a property code of another shape is
    never found in the map. *)
Theorem parseChatMap_key_shape (env : gmap string string) (map : gmap string number)
    (k : string) (n : number) :
  parseChatMap env = Return map -> map !! k = Some n -> key_shape k.
Proof.
  unfold parseChatMap, parseChatMap_raw. intros Hp. revert k n.
  revert Hp.
  apply (parseChatMap_loop_invariant (fun m => forall k n, m !! k = Some n -> key_shape k)).
  - intros m part m' Hin Hm. unfold parseChatMap_step.
    destruct (_ || _); [intros H; inversion H; subst; exact Hm|].
    pose proof (split_pieces_free ":" (Str.trim part)) as [Hcolon _].
    pose proof (split_pieces_fst_keeps ":" "," (Str.trim part)) as Hcomma.
    unfold Str.split. destruct (Str.split_pieces ":" (Str.trim part)) as [code [|chat l]];
      [discriminate|]. simpl in Hcolon, Hcomma.
    intros H. inversion H; subst. intros k n. unfold chat_map_set.
    destruct (String.eqb (Str.trim code) "__proto__"); [apply Hm|].
    destruct (decide (Str.trim code = k)) as [<-|Hne].
    + intros _. split; [apply trim_idem|].
      rewrite !includes_trim by reflexivity. split; [exact Hcolon|].
      apply Hcomma. rewrite includes_trim by reflexivity.
      exact (split_free _ _ _ Hin).
    + rewrite lookup_insert_ne by exact Hne. apply Hm.
  - intros k n H. rewrite lookup_empty in H. discriminate.
Qed.

Lemma parseChatMap_key_shape_witness : key_shape "A".
Proof.
  apply (parseChatMap_key_shape {[ "TELEGRAM_PROPERTY_CHAT_MAP" := " A :111" ]}
           {[ "A" := Int 111 ]} "A" (Int 111)).
  - vm_compute. reflexivity.
  - reflexivity.
Defined.

(** ** From the configuration string to the route *)

Lemma resolveTelegramRoute_lookup (CHAT_MAP : gmap string number)
    (env : gmap string string) (propertyCode : string) (n : number) :
  propertyCode <> "ALL" ->
  CHAT_MAP !! propertyCode = Some n ->
  Num.truthy n = true ->
  resolveTelegramRoute CHAT_MAP env propertyCode
  = {| botToken := env !! "TELEGRAM_DEFAULT_BOT_TOKEN"; chatId := VNumber n |}.
Proof.
  intros Hne Hin Ht. unfold resolveTelegramRoute, chat_map_get.
  apply String.eqb_neq in Hne. rewrite Hne, Hin. unfold or_else at 1. simpl.
  rewrite Ht. reflexivity.
Qed.

(** X6. Parsing and resolving compose: when the configuration string read
    at load time ends with the entry "code:chat" and [Number(chat)] is
    neither zero nor NaN, the trimmed code (other than "ALL" and __proto__)
    resolves, under any later environment, to that chat id with the default
    bot token. *)
Theorem parseChatMap_then_resolve (load_env env : gmap string string)
    (entries : list string) (code chat : string) :
  Forall comma_free entries ->
  comma_free code -> comma_free chat ->
  colon_free code -> colon_free chat ->
  Str.trim code <> "__proto__" ->
  Str.trim code <> "ALL" ->
  Num.truthy (Number (VString chat)) = true ->
  exists CHAT_MAP,
    parseChatMap (<["TELEGRAM_PROPERTY_CHAT_MAP" :=
                      Str.join "," (entries ++ [code ++ ":" ++ chat])]> load_env)
    = Return CHAT_MAP
    /\ resolveTelegramRoute CHAT_MAP env (Str.trim code)
       = {| botToken := env !! "TELEGRAM_DEFAULT_BOT_TOKEN";
            chatId := VNumber (Number (VString chat)) |}.
Proof.
  intros He Hc1 Hv1 Hc2 Hv2 Hk Hall Ht.
  rewrite parseChatMap_insert, parseChatMap_raw_join.
  2:{ apply Forall_app. split; [exact He|]. constructor; [|constructor].
      apply comma_free_pair; assumption. }
  rewrite parseChatMap_loop_app.
  destruct (parseChatMap_loop_returns entries ∅) as [m ->].
  change (code ++ ":" ++ chat) with (code ++ String ":" chat). simpl.
  rewrite parseChatMap_step_colon by exact Hc2.
  rewrite split_pieces_no_sep.
  2:{ unfold colon_free in Hv2. rewrite includes_trimEnd by reflexivity. exact Hv2. }
  simpl. eexists. split; [reflexivity|].
  assert (Hn : Num.of_string (Str.trimEnd chat) = Number (VString chat)).
  { simpl. rewrite <- of_string_trim, trim_trimEnd, of_string_trim. reflexivity. }
  rewrite Hn. apply resolveTelegramRoute_lookup; [exact Hall | | exact Ht].
  unfold chat_map_set. apply String.eqb_neq in Hk. rewrite Hk. apply lookup_insert_eq.
Qed.

Lemma parseChatMap_then_resolve_witness :
  exists CHAT_MAP,
    parseChatMap (<["TELEGRAM_PROPERTY_CHAT_MAP" :=
                      Str.join "," (["A:111"] ++ [" B22 " ++ ":" ++ " -100555 "])]> ∅)
    = Return CHAT_MAP
    /\ resolveTelegramRoute CHAT_MAP {[ "TELEGRAM_DEFAULT_BOT_TOKEN" := "tok" ]} (Str.trim " B22 ")
       = {| botToken := ({[ "TELEGRAM_DEFAULT_BOT_TOKEN" := "tok" ]} : gmap string string)
                          !! "TELEGRAM_DEFAULT_BOT_TOKEN";
            chatId := VNumber (Number (VString " -100555 ")) |}.
Proof.
  apply (parseChatMap_then_resolve ∅ {[ "TELEGRAM_DEFAULT_BOT_TOKEN" := "tok" ]}
           ["A:111"] " B22 " " -100555 "); try reflexivity.
  - repeat constructor.
  - discriminate.
  - discriminate.
Defined.

(** X7. A property code other than "ALL" that is neither a key of the map
    nor a name inherited from [Object.prototype] resolves to the default
    bot token and the default chat id, which is 0 when
    TELEGRAM_DEFAULT_CHAT_ID is not set or empty. *)
Theorem resolveTelegramRoute_fallback (CHAT_MAP : gmap string number)
    (env : gmap string string) (propertyCode : string) :
  propertyCode <> "ALL" ->
  CHAT_MAP !! propertyCode = None ->
  inherited propertyCode = false ->
  botToken (resolveTelegramRoute CHAT_MAP env propertyCode)
  = env !! "TELEGRAM_DEFAULT_BOT_TOKEN"
  /\ chatId (resolveTelegramRoute CHAT_MAP env propertyCode)
     = VNumber (Number (or_else (env_get env "TELEGRAM_DEFAULT_CHAT_ID") (VNumber (Int 0))))
  /\ (falsy_string (env !! "TELEGRAM_DEFAULT_CHAT_ID") = true ->
      chatId (resolveTelegramRoute CHAT_MAP env propertyCode) = VNumber (Int 0)).
Proof.
  intros Hne Hin Hinh. rewrite resolveTelegramRoute_unmapped by assumption. simpl.
  split; [reflexivity|]. split; [reflexivity|].
  unfold default_chat_id, env_get. destruct (env !! "TELEGRAM_DEFAULT_CHAT_ID") as [s|]; simpl.
  - intros Hs. destruct s; [reflexivity|discriminate].
  - reflexivity.
Qed.

Lemma resolveTelegramRoute_fallback_witness :
  let CHAT_MAP : gmap string number := {[ "HYD" := Int 555 ]} in
  let env : gmap string string := {[ "TELEGRAM_DEFAULT_BOT_TOKEN" := "tok" ]} in
  botToken (resolveTelegramRoute CHAT_MAP env "GOA")
  = env !! "TELEGRAM_DEFAULT_BOT_TOKEN"
  /\ chatId (resolveTelegramRoute CHAT_MAP env "GOA")
     = VNumber (Number (or_else (env_get env "TELEGRAM_DEFAULT_CHAT_ID") (VNumber (Int 0))))
  /\ (falsy_string (env !! "TELEGRAM_DEFAULT_CHAT_ID") = true ->
      chatId (resolveTelegramRoute CHAT_MAP env "GOA") = VNumber (Int 0)).
Proof.
  intros CHAT_MAP env. apply (resolveTelegramRoute_fallback CHAT_MAP env "GOA").
  - discriminate.
  - reflexivity.
  - reflexivity.
Defined.

(** X8. The consolidated route has no fallback: when
    TELEGRAM_CONSOLIDATED_CHAT_ID is not set, the chat id of the route for
    "ALL" is NaN, and the bot token is undefined when its variable is not
    set. *)
Theorem resolveTelegramRoute_ALL_unset (CHAT_MAP : gmap string number)
    (env : gmap string string) :
  (env !! "TELEGRAM_CONSOLIDATED_CHAT_ID" = None ->
   chatId (resolveTelegramRoute CHAT_MAP env "ALL") = VNumber NaN)
  /\ (env !! "TELEGRAM_CONSOLIDATED_BOT_TOKEN" = None ->
      telegram_url (botToken (resolveTelegramRoute CHAT_MAP env "ALL"))
      = "https://api.telegram.org/botundefined/sendMessage").
Proof.
  split; intros H; simpl; unfold env_get; rewrite H; reflexivity.
Qed.

Lemma resolveTelegramRoute_ALL_unset_witness :
  chatId (resolveTelegramRoute ∅ ∅ "ALL") = VNumber NaN.
Proof. apply (proj1 (resolveTelegramRoute_ALL_unset ∅ ∅)). reflexivity. Defined.

(** ** The chat sender: calls and failures *)

(** X9. Whatever the outcome, a call of the chat sender makes exactly one
    call to the API: a POST to the sendMessage URL of the bot token, with
    the chat id, the text and the HTML parse mode; nothing is retried. *)
Theorem telegramSendText_one_call (a : TelegramText) (w : World) (tr : list event) :
  snd (telegramSendText a w tr) = (tr ++ [telegram_call a])%list.
Proof.
  unfold telegramSendText, telegram_call, bind, emit, ask, lift.
  destruct (fetch_reply w _ _) as [resp|e]; [|reflexivity].
  destruct (resp_ok resp); simpl.
  - destruct (json_body resp) as [[| | | | |f]|]; try reflexivity.
    destruct (json_get "ok" (JObject f)) as [[|[|]| | | |]|]; reflexivity.
  - reflexivity.
Qed.

(** X10. For a reply that is not the JSON value null under a status in
    200-299, the chat sender returns the parsed body exactly when the
    status is in 200-299 and the body's ok is the boolean true; otherwise
    it throws "Telegram failed: <status> <description>", with the status
    text in place of a description that is absent or falsy. *)
Theorem telegramSendText_by_reply (a : TelegramText) (w : World) (tr : list event)
    (resp : Response) :
  replies_with w resp ->
  json_body resp <> Some JNull \/ resp_ok resp = false ->
  let data := match json_body resp with Some j => j | None => JObject [] end in
  let desc := match json_get "description" data with
              | Some d => if json_truthy d then json_to_string d else statusText resp
              | None => statusText resp
              end in
  fst (telegramSendText a w tr)
  = if resp_ok resp && match json_get "ok" data with Some (JBool true) => true | _ => false end
    then Return data
    else Throw (Error ("Telegram failed: " ++ Z_to_string (status resp) ++ " " ++ desc)).
Proof.
  intros Hw Hnull data desc. unfold telegramSendText, bind, emit, ask, lift.
  rewrite Hw. fold data. fold desc.
  destruct (resp_ok resp) eqn:Hok; simpl; [|reflexivity].
  destruct Hnull as [Hn|Hn]; [|discriminate].
  assert (Hd : data <> JNull).
  { subst data. destruct (json_body resp) as [j|]; [congruence|discriminate]. }
  destruct data as [|b|z|s|l|f]; try congruence; unfold ret; simpl; try reflexivity.
  destruct (assoc "ok" f) as [[|[|]| | | |]|]; reflexivity.
Qed.

Lemma telegramSendText_by_reply_witness :
  let resp := {| status := 400; statusText := "Bad Request";
                 json_body := Some (JObject [("ok", JBool false);
                                             ("error_code", JNumber 400);
                                             ("description", JString "Bad Request: chat not found")]) |} in
  let w := {| env := ∅; fetch_reply := fun _ _ => Return resp;
              sendMail_reply := fun _ _ => Return tt |} in
  let a := {| tt_botToken := Some "tok"; tt_chatId := VNumber (Int 0); tt_text := "hello" |} in
  let data := match json_body resp with Some j => j | None => JObject [] end in
  let desc := match json_get "description" data with
              | Some d => if json_truthy d then json_to_string d else statusText resp
              | None => statusText resp
              end in
  fst (telegramSendText a w [])
  = if resp_ok resp && match json_get "ok" data with Some (JBool true) => true | _ => false end
    then Return data
    else Throw (Error ("Telegram failed: " ++ Z_to_string (status resp) ++ " " ++ desc)).
Proof.
  intros resp w a. apply (telegramSendText_by_reply a w [] resp).
  - intros url init. reflexivity.
  - left. discriminate.
Defined.

(** X11. A reply whose body is not JSON is a failure even when its status
    is in 200-299: the body is read as the empty object, and the error
    carries the status and the status text. *)
Theorem telegramSendText_not_json (a : TelegramText) (w : World) (tr : list event)
    (code : Z) (st : string) :
  replies_with w {| status := code; statusText := st; json_body := None |} ->
  fst (telegramSendText a w tr)
  = Throw (Error ("Telegram failed: " ++ Z_to_string code ++ " " ++ st)).
Proof.
  intros Hw. unfold telegramSendText, bind, emit, ask, lift. rewrite Hw. simpl.
  destruct (resp_ok _); reflexivity.
Qed.

Lemma telegramSendText_not_json_witness :
  let w := {| env := ∅;
              fetch_reply := fun _ _ =>
                Return {| status := 200; statusText := "OK"; json_body := None |};
              sendMail_reply := fun _ _ => Return tt |} in
  fst (telegramSendText {| tt_botToken := Some "tok"; tt_chatId := VNumber (Int 555);
                           tt_text := "hello" |} w [])
  = Throw (Error ("Telegram failed: " ++ Z_to_string 200 ++ " " ++ "OK")).
Proof.
  intros w. apply (telegramSendText_not_json _ w [] 200 "OK"). intros url init. reflexivity.
Defined.

(** X12. When [fetch] itself rejects, the chat sender rejects with the
    same error, after the one call. *)
Theorem telegramSendText_fetch_rejects (a : TelegramText) (w : World) (tr : list event)
    (e : exn) :
  fetch_reply w (telegram_url (tt_botToken a)) (telegram_init (tt_chatId a) (tt_text a))
  = Throw e ->
  telegramSendText a w tr = (Throw e, (tr ++ [telegram_call a])%list).
Proof.
  intros Hw. unfold telegramSendText, telegram_call, bind, emit, ask, lift.
  rewrite Hw. reflexivity.
Qed.

Lemma telegramSendText_fetch_rejects_witness :
  let w := {| env := ∅; fetch_reply := fun _ _ => Throw (TypeError "fetch failed");
              sendMail_reply := fun _ _ => Return tt |} in
  let a := {| tt_botToken := Some "tok"; tt_chatId := VNumber (Int 555); tt_text := "hello" |} in
  telegramSendText a w [] = (Throw (TypeError "fetch failed"), ([] ++ [telegram_call a])%list).
Proof.
  intros w a. apply (telegramSendText_fetch_rejects a w [] (TypeError "fetch failed")).
  reflexivity.
Defined.

(** ** The mail module: what is built and what is sent *)

Lemma falsy_string_false o : falsy_string o = false -> exists s, o = Some s /\ s <> "".
Proof.
  destruct o as [s|]; simpl; [|discriminate].
  destruct s; [discriminate|]. intros _. eexists. split; [reflexivity|discriminate].
Qed.

Lemma createTransport_auth_user (env : gmap string string) (t : TransportOptions) :
  createTransport env = Return t -> env !! "SMTP_USER" = Some (auth_user t).
Proof.
  unfold createTransport.
  destruct (falsy_string (env !! "SMTP_HOST")); [discriminate|].
  destruct (falsy_string (env !! "SMTP_USER")) eqn:Hu; [discriminate|].
  destruct (falsy_string (env !! "SMTP_PASS")); [discriminate|].
  apply falsy_string_false in Hu as (u & Hu & _). rewrite Hu. simpl.
  intros H. inversion H; subst. reflexivity.
Qed.

(** X13. A transport that is built carries the host, the user and the
    password of the environment as they are, none of them empty. *)
Theorem createTransport_fields (env : gmap string string) (t : TransportOptions) :
  createTransport env = Return t ->
  (env !! "SMTP_HOST" = Some (host t) /\ host t <> "")
  /\ (env !! "SMTP_USER" = Some (auth_user t) /\ auth_user t <> "")
  /\ (env !! "SMTP_PASS" = Some (auth_pass t) /\ auth_pass t <> "").
Proof.
  unfold createTransport.
  destruct (falsy_string (env !! "SMTP_HOST")) eqn:Hh; [discriminate|].
  destruct (falsy_string (env !! "SMTP_USER")) eqn:Hu; [discriminate|].
  destruct (falsy_string (env !! "SMTP_PASS")) eqn:Hp; [discriminate|].
  apply falsy_string_false in Hh as (h & Hh & Hh'), Hu as (u & Hu & Hu'), Hp as (p & Hp & Hp').
  rewrite Hh, Hu, Hp. simpl. intros H. inversion H; subst; clear H. simpl. auto.
Qed.

Lemma createTransport_fields_witness :
  let env : gmap string string :=
    {[ "SMTP_HOST" := "smtp.example.com"; "SMTP_USER" := "desk"; "SMTP_PASS" := "secret" ]} in
  let t := {| host := "smtp.example.com"; port := Int 587; secure := false;
              auth_user := "desk"; auth_pass := "secret" |} in
  (env !! "SMTP_HOST" = Some (host t) /\ host t <> "")
  /\ (env !! "SMTP_USER" = Some (auth_user t) /\ auth_user t <> "")
  /\ (env !! "SMTP_PASS" = Some (auth_pass t) /\ auth_pass t <> "").
Proof.
  intros env t. apply (createTransport_fields env t). vm_compute. reflexivity.
Defined.

(** X14. [sendGuestEmail] makes one attempt: once the transport is built,
    the message goes to it exactly once, and the call completes as the
    transport does, an error of the transport coming back unchanged. *)
Theorem sendGuestEmail_single_attempt (arg : list (string * value)) (w : World)
    (tr : list event) (t : TransportOptions) :
  createTransport (env w) = Return t ->
  sendGuestEmail arg w tr
  = (sendMail_reply w t (mail_of (env w) arg),
     (tr ++ [ESendMail t (mail_of (env w) arg)])%list).
Proof.
  intros Ht. rewrite sendGuestEmail_run, Ht. reflexivity.
Qed.

Lemma sendGuestEmail_single_attempt_witness :
  let w := {| env := {[ "SMTP_HOST" := "smtp.example.com"; "SMTP_USER" := "desk";
                        "SMTP_PASS" := "secret" ]};
              fetch_reply := fun _ _ => Throw (TypeError "fetch failed");
              sendMail_reply := fun _ _ => Throw (Error "connect ECONNREFUSED") |} in
  let t := {| host := "smtp.example.com"; port := Int 587; secure := false;
              auth_user := "desk"; auth_pass := "secret" |} in
  let arg := [("to", VString "jane@example.com"); ("subject", VString "Booking")] in
  sendGuestEmail arg w []
  = (sendMail_reply w t (mail_of (env w) arg),
     ([] ++ [ESendMail t (mail_of (env w) arg)])%list).
Proof.
  intros w t arg. apply (sendGuestEmail_single_attempt arg w [] t). vm_compute. reflexivity.
Defined.

(** X15. The sender address of the message is SMTP_FROM when that is set
    and not empty, and otherwise the SMTP user the transport logs in
    with. *)
Theorem sendGuestEmail_from (arg : list (string * value)) (w : World) (t : TransportOptions) :
  createTransport (env w) = Return t ->
  (forall f, env w !! "SMTP_FROM" = Some f -> f <> "" ->
             from (mail_of (env w) arg) = VString f)
  /\ (falsy_string (env w !! "SMTP_FROM") = true ->
      from (mail_of (env w) arg) = VString (auth_user t)).
Proof.
  intros Ht. pose proof (createTransport_auth_user _ _ Ht) as Hu.
  unfold mail_of, or_else, env_get. simpl. split.
  - intros f Hf Hne. rewrite Hf. simpl. destruct f; [congruence|reflexivity].
  - intros Hf. rewrite Hu. destruct (env w !! "SMTP_FROM") as [f|]; simpl in *.
    + destruct f; [reflexivity|discriminate].
    + reflexivity.
Qed.

Lemma sendGuestEmail_from_witness :
  let w := {| env := {[ "SMTP_HOST" := "smtp.example.com"; "SMTP_USER" := "desk";
                        "SMTP_PASS" := "secret" ]};
              fetch_reply := fun _ _ => Throw (TypeError "fetch failed");
              sendMail_reply := fun _ _ => Return tt |} in
  let t := {| host := "smtp.example.com"; port := Int 587; secure := false;
              auth_user := "desk"; auth_pass := "secret" |} in
  from (mail_of (env w) []) = VString (auth_user t).
Proof.
  intros w t. apply (proj2 (sendGuestEmail_from [] w t ltac:(vm_compute; reflexivity))).
  reflexivity.
Defined.

(** ** The schema: what is accepted *)

Lemma zod_min_pass key n s : (n <= String.length s)%nat -> zod_min key n s = [].
Proof.
  intros H. unfold zod_min. apply Nat.ltb_ge in H. rewrite H. reflexivity.
Qed.

Lemma email_check_pass is_email key s : is_email s = true -> email_check is_email key s = [].
Proof. intros H. unfold email_check. rewrite H. reflexivity. Qed.

Lemma zod_optional_string_ok key v s :
  zod_optional_string key v = ([], s) ->
  v = Some (JString s) \/ (v = None /\ s = "").
Proof.
  unfold zod_optional_string. destruct v as [[]|]; intros H; inversion H; subst; auto.
Qed.

Lemma BookingSchema_parse_carries is_email format_issues body data :
  BookingSchema_parse is_email format_issues body = Return data ->
  carries is_email body data.
Proof.
  unfold BookingSchema_parse. destruct body as [| | | | |fields]; try discriminate.
  destruct (zod_string "propertyCode" _ _) as [i1 v1] eqn:E1.
  destruct (zod_string "roomId" _ _) as [i2 v2] eqn:E2.
  destruct (zod_string "guestName" _ _) as [i3 v3] eqn:E3.
  destruct (zod_string "phone" _ _) as [i4 v4] eqn:E4.
  destruct (zod_string "email" _ _) as [i5 v5] eqn:E5.
  destruct (zod_string "checkIn" _ _) as [i6 v6] eqn:E6.
  destruct (zod_string "checkOut" _ _) as [i7 v7] eqn:E7.
  destruct (zod_optional_string "note" _) as [i8 v8] eqn:E8.
  destruct i1; [|discriminate]. destruct i2; [|discriminate].
  destruct i3; [|discriminate]. destruct i4; [|discriminate].
  destruct i5; [|discriminate]. destruct i6; [|discriminate].
  destruct i7; [|discriminate]. destruct i8; [|discriminate].
  intros H. inversion H; subst; clear H. unfold carries. simpl.
  apply zod_string_ok in E1 as [F1 C1], E2 as [F2 C2], E3 as [F3 C3], E4 as [F4 C4],
    E5 as [F5 C5], E6 as [F6 C6], E7 as [F7 C7].
  apply zod_min_ok in C1, C2, C3, C4, C6, C7. apply email_check_ok in C5.
  apply zod_optional_string_ok in E8.
  repeat split; assumption.
Qed.

Lemma carries_BookingSchema_parse is_email format_issues body data :
  carries is_email body data ->
  BookingSchema_parse is_email format_issues body = Return data.
Proof.
  intros ((F1 & C1) & (F2 & C2) & (F3 & C3) & (F4 & C4) & (F5 & C5) & (F6 & C6)
          & (F7 & C7) & F8).
  destruct body as [| | | | |fields]; try discriminate F1.
  unfold BookingSchema_parse. cbv zeta. rewrite F1, F2, F3, F4, F5, F6, F7.
  unfold zod_string.
  rewrite !zod_min_pass by assumption. rewrite email_check_pass by assumption.
  destruct data as [d1 d2 d3 d4 d5 d6 d7 d8]. simpl in *.
  destruct F8 as [F8|[F8 ->]]; rewrite F8; reflexivity.
Qed.

(** X16. The schema accepts a payload with the data [data] exactly when
    the payload carries it: each required field is a string of its minimum
    length, the email has the accepted format, the note is a string or
    absent (then read as empty); the strings are taken as they are. *)
Theorem BookingSchema_parse_iff (is_email : string -> bool)
    (format_issues : list ZodIssue -> string) (body : json) (data : Booking) :
  BookingSchema_parse is_email format_issues body = Return data
  <-> carries is_email body data.
Proof.
  split; [apply BookingSchema_parse_carries | apply carries_BookingSchema_parse].
Qed.

(** X17. Only the eight keys of the schema are read: two objects that
    agree on them are parsed alike, so unknown keys and the order of the
    keys make no difference. *)
Theorem BookingSchema_parse_reads_schema_keys (is_email : string -> bool)
    (format_issues : list ZodIssue -> string) (f1 f2 : list (string * json)) :
  (forall k, In k schema_keys -> json_get k (JObject f1) = json_get k (JObject f2)) ->
  BookingSchema_parse is_email format_issues (JObject f1)
  = BookingSchema_parse is_email format_issues (JObject f2).
Proof.
  intros H. unfold BookingSchema_parse. cbv zeta.
  rewrite !H by (simpl; tauto). reflexivity.
Qed.

Lemma BookingSchema_parse_reads_schema_keys_witness :
  let is_email := fun _ : string => true in
  let format_issues := fun _ : list ZodIssue => "invalid" in
  BookingSchema_parse is_email format_issues
    (JObject [("admin", JBool true); ("roomId", JString "101"); ("propertyCode", JString "B2x")])
  = BookingSchema_parse is_email format_issues
      (JObject [("propertyCode", JString "B2x"); ("roomId", JString "101")]).
Proof.
  intros is_email format_issues.
  apply (BookingSchema_parse_reads_schema_keys is_email format_issues).
  intros k Hk. simpl in Hk.
  repeat (destruct Hk as [<-|Hk]; [reflexivity|]). destruct Hk.
Defined.

(** X18. A note that is present but not a string (null, a number, ...) is
    rejected, with an issue at the path of the note. *)
Theorem BookingSchema_parse_note_not_string (is_email : string -> bool)
    (format_issues : list ZodIssue -> string) (body v : json) :
  json_get "note" body = Some v ->
  (forall s, v <> JString s) ->
  exists issues,
    BookingSchema_parse is_email format_issues body = Throw (ZodError format_issues issues)
    /\ In (invalid_type ["note"]) issues.
Proof.
  intros Hn Hv. destruct body as [| | | | |fields]; try discriminate Hn.
  unfold BookingSchema_parse. cbv zeta. rewrite Hn.
  destruct (zod_string "propertyCode" _ _) as [i1 v1].
  destruct (zod_string "roomId" _ _) as [i2 v2].
  destruct (zod_string "guestName" _ _) as [i3 v3].
  destruct (zod_string "phone" _ _) as [i4 v4].
  destruct (zod_string "email" _ _) as [i5 v5].
  destruct (zod_string "checkIn" _ _) as [i6 v6].
  destruct (zod_string "checkOut" _ _) as [i7 v7].
  assert (E : zod_optional_string "note" (Some v) = ([invalid_type ["note"]], "")).
  { destruct v; try reflexivity. exfalso. exact (Hv s eq_refl). }
  rewrite E.
  assert (Hin : In (invalid_type ["note"])
                  (i1 ++ i2 ++ i3 ++ i4 ++ i5 ++ i6 ++ i7 ++ [invalid_type ["note"]])%list).
  { rewrite !List.in_app_iff. simpl. tauto. }
  destruct (i1 ++ i2 ++ i3 ++ i4 ++ i5 ++ i6 ++ i7 ++ [invalid_type ["note"]])%list
    as [|i l]; [destruct Hin|].
  exists (i :: l). split; [reflexivity | exact Hin].
Qed.

Lemma BookingSchema_parse_note_not_string_witness :
  let is_email := fun _ : string => true in
  let format_issues := fun _ : list ZodIssue => "invalid" in
  let body := JObject [ ("propertyCode", JString "B2x"); ("roomId", JString "101");
                        ("guestName", JString "Jane Doe"); ("phone", JString "+15551234567");
                        ("email", JString "jane@example.com");
                        ("checkIn", JString "2024-06-01"); ("checkOut", JString "2024-06-05");
                        ("note", JNull) ] in
  exists issues,
    BookingSchema_parse is_email format_issues body = Throw (ZodError format_issues issues)
    /\ In (invalid_type ["note"]) issues.
Proof.
  intros is_email format_issues body.
  apply (BookingSchema_parse_note_not_string is_email format_issues body JNull).
  - reflexivity.
  - intros s. discriminate.
Defined.

Lemma BookingSchema_parse_iff_witness :
  let is_email := fun _ : string => true in
  let format_issues := fun _ : list ZodIssue => "invalid" in
  let body := JObject [ ("propertyCode", JString "B2x"); ("roomId", JString "101");
                        ("guestName", JString "Jane Doe"); ("phone", JString "+15551234567");
                        ("email", JString "jane@example.com");
                        ("checkIn", JString "2024-06-01"); ("checkOut", JString "2024-06-05") ] in
  BookingSchema_parse is_email format_issues body
  = Return (mkBooking "B2x" "101" "Jane Doe" "+15551234567" "jane@example.com"
              "2024-06-01" "2024-06-05" "").
Proof.
  intros is_email format_issues body.
  apply (proj2 (BookingSchema_parse_iff is_email format_issues body _)).
  unfold carries. simpl. repeat split; try reflexivity; try lia.
  right. split; reflexivity.
Defined.

(** ** The handler: its exits *)

(** The handler once the payload is accepted, by the outcome of the chat
    send and then of the mail send. *)
Lemma POST_after_parse is_email format_issues sendTelegramMessage CHAT_MAP body data w tr :
  BookingSchema_parse is_email format_issues body = Return data ->
  POST is_email format_issues sendTelegramMessage CHAT_MAP (Return body) w tr
  = match sendTelegramMessage (resolveTelegramRoute CHAT_MAP (env w) (propertyCode data))
            (booking_message data) w tr with
    | (Throw e, tr1) => (Return (failure_response e), (tr1 ++ [ELog e])%list)
    | (Return _, tr1) =>
        match sendGuestEmail (guest_email_argument data) w tr1 with
        | (Throw e, tr2) => (Return (failure_response e), (tr2 ++ [ELog e])%list)
        | (Return _, tr2) => (Return success_response, tr2)
        end
    end.
Proof.
  intros Hp. unfold POST, try_catch, bind at 1 2 3 4, lift at 1 2, ask at 1. rewrite Hp.
  cbv beta iota.
  destruct (sendTelegramMessage _ _ w tr) as [[u|e] tr1]; [|reflexivity].
  unfold bind at 1.
  destruct (sendGuestEmail _ w tr1) as [[u'|e] tr2]; reflexivity.
Qed.

(** X19. The handler never rejects: whatever the request, the services and
    the chat sender do, it answers either with status 200 and ok true, or
    with status 400, ok false and the text of an error that it has logged
    last. *)
Theorem POST_always_answers (is_email : string -> bool)
    (format_issues : list ZodIssue -> string)
    (sendTelegramMessage : NotificationRoute -> string -> M unit)
    (CHAT_MAP : gmap string number) (req_json : completion json)
    (w : World) (tr : list event) :
  (exists tr', POST is_email format_issues sendTelegramMessage CHAT_MAP req_json w tr
               = (Return success_response, tr'))
  \/ (exists e tr0, POST is_email format_issues sendTelegramMessage CHAT_MAP req_json w tr
                    = (Return (failure_response e), (tr0 ++ [ELog e])%list)).
Proof.
  destruct req_json as [body|e]; [|right; exists e, tr; reflexivity].
  destruct (BookingSchema_parse is_email format_issues body) as [data|e] eqn:Hp.
  - rewrite (POST_after_parse _ _ _ _ _ _ _ _ Hp).
    destruct (sendTelegramMessage _ _ w tr) as [[u|e] tr1]; [|right; eauto].
    destruct (sendGuestEmail _ w tr1) as [[u'|e] tr2]; [left|right]; eauto.
  - right. exists e, tr. apply POST_parse_Throw. exact Hp.
Qed.

(** X20. A request whose body is not JSON ([req.json()] rejects with [e])
    is answered with status 400 and the text of [e]; the error is logged
    and no chat or mail call is made. *)
Theorem POST_body_not_json (is_email : string -> bool)
    (format_issues : list ZodIssue -> string)
    (sendTelegramMessage : NotificationRoute -> string -> M unit)
    (CHAT_MAP : gmap string number) (e : exn) (w : World) (tr : list event) :
  POST is_email format_issues sendTelegramMessage CHAT_MAP (Throw e) w tr
  = (Return (failure_response e), (tr ++ [ELog e])%list)
  /\ notifications (snd (POST is_email format_issues sendTelegramMessage CHAT_MAP (Throw e) w tr))
     = notifications tr.
Proof.
  split; [reflexivity|]. apply notifications_log.
Qed.

(** X21. When the chat send fails, the mail is never attempted: the
    handler answers 400 with the text of that error, and the trace is the
    one the chat send left, with the log entry after it. *)
Theorem POST_chat_failure (is_email : string -> bool)
    (format_issues : list ZodIssue -> string)
    (sendTelegramMessage : NotificationRoute -> string -> M unit)
    (CHAT_MAP : gmap string number) (body : json) (data : Booking)
    (w : World) (tr tr1 : list event) (e : exn) :
  BookingSchema_parse is_email format_issues body = Return data ->
  sendTelegramMessage (resolveTelegramRoute CHAT_MAP (env w) (propertyCode data))
    (booking_message data) w tr = (Throw e, tr1) ->
  POST is_email format_issues sendTelegramMessage CHAT_MAP (Return body) w tr
  = (Return (failure_response e), (tr1 ++ [ELog e])%list).
Proof.
  intros Hp Hs. rewrite (POST_after_parse _ _ _ _ _ _ _ _ Hp), Hs. reflexivity.
Qed.

(** X22. A missing mail configuration is found only after the chat message
    is out: when the chat send has returned and the host, user or password
    is missing, the handler answers 400 with "SMTP env missing", keeps what
    the chat send did, and hands nothing to a transport. *)
Theorem POST_smtp_missing (is_email : string -> bool)
    (format_issues : list ZodIssue -> string)
    (sendTelegramMessage : NotificationRoute -> string -> M unit)
    (CHAT_MAP : gmap string number) (body : json) (data : Booking)
    (w : World) (tr tr1 : list event) :
  BookingSchema_parse is_email format_issues body = Return data ->
  sendTelegramMessage (resolveTelegramRoute CHAT_MAP (env w) (propertyCode data))
    (booking_message data) w tr = (Return tt, tr1) ->
  smtp_missing (env w) ->
  POST is_email format_issues sendTelegramMessage CHAT_MAP (Return body) w tr
  = (Return {| http_status := 400; ok := false; error := Some "SMTP env missing" |},
     (tr1 ++ [ELog (Error "SMTP env missing")])%list).
Proof.
  intros Hp Hs Hm. rewrite (POST_after_parse _ _ _ _ _ _ _ _ Hp), Hs.
  rewrite sendGuestEmail_run, (createTransport_missing _ Hm). reflexivity.
Qed.

(** X23. When the chat send has returned, the transport is built and the
    transport accepts the message, the handler answers 200 with ok true;
    the trace grows by the one mail and nothing is logged. *)
Theorem POST_success (is_email : string -> bool)
    (format_issues : list ZodIssue -> string)
    (sendTelegramMessage : NotificationRoute -> string -> M unit)
    (CHAT_MAP : gmap string number) (body : json) (data : Booking)
    (w : World) (tr tr1 : list event) (t : TransportOptions) :
  BookingSchema_parse is_email format_issues body = Return data ->
  sendTelegramMessage (resolveTelegramRoute CHAT_MAP (env w) (propertyCode data))
    (booking_message data) w tr = (Return tt, tr1) ->
  createTransport (env w) = Return t ->
  sendMail_reply w t (mail_of (env w) (guest_email_argument data)) = Return tt ->
  POST is_email format_issues sendTelegramMessage CHAT_MAP (Return body) w tr
  = (Return success_response,
     (tr1 ++ [ESendMail t (mail_of (env w) (guest_email_argument data))])%list).
Proof.
  intros Hp Hs Ht Hm. rewrite (POST_after_parse _ _ _ _ _ _ _ _ Hp), Hs.
  rewrite sendGuestEmail_run, Ht. cbv zeta. fold (mail_of (env w) (guest_email_argument data)).
  rewrite Hm. reflexivity.
Qed.

(** X24. When the transport rejects the message with [e] after the chat
    send has returned, the handler answers 400 with the text of [e]: the
    chat message stays sent, and the answer does not tell which of the two
    sends failed. *)
Theorem POST_mail_failure (is_email : string -> bool)
    (format_issues : list ZodIssue -> string)
    (sendTelegramMessage : NotificationRoute -> string -> M unit)
    (CHAT_MAP : gmap string number) (body : json) (data : Booking)
    (w : World) (tr tr1 : list event) (t : TransportOptions) (e : exn) :
  BookingSchema_parse is_email format_issues body = Return data ->
  sendTelegramMessage (resolveTelegramRoute CHAT_MAP (env w) (propertyCode data))
    (booking_message data) w tr = (Return tt, tr1) ->
  createTransport (env w) = Return t ->
  sendMail_reply w t (mail_of (env w) (guest_email_argument data)) = Throw e ->
  POST is_email format_issues sendTelegramMessage CHAT_MAP (Return body) w tr
  = (Return (failure_response e),
     (tr1 ++ [ESendMail t (mail_of (env w) (guest_email_argument data)); ELog e])%list).
Proof.
  intros Hp Hs Ht Hm. rewrite (POST_after_parse _ _ _ _ _ _ _ _ Hp), Hs.
  rewrite sendGuestEmail_run, Ht. cbv zeta. fold (mail_of (env w) (guest_email_argument data)).
  rewrite Hm. rewrite <- List.app_assoc. reflexivity.
Qed.

(** X25. The chat message has the seven lines of the booking in their
    order, whatever the fields hold, and an eighth line with the note
    exactly when the note is not empty. *)
Theorem booking_message_lines (data : Booking) :
  booking_message data
  = Str.join newline
      (List.app
       [ "<b>NEW BOOKING REQUEST</b>";
         "<b>Property:</b> " ++ propertyCode data;
         "<b>Room:</b> " ++ roomId data;
         "<b>Name:</b> " ++ guestName data;
         "<b>Phone:</b> " ++ phone data;
         "<b>Email:</b> " ++ email data;
         "<b>Dates:</b> " ++ checkIn data ++ " → " ++ checkOut data ]
       (if Str.is_empty (note data) then [] else ["<b>Note:</b> " ++ note data])).
Proof.
  unfold booking_message. destruct (Str.is_empty (note data)); reflexivity.
Qed.

(** The four exits on an accepted payload, at concrete worlds. *)
Lemma POST_chat_failure_witness :
  let is_email := fun _ : string => true in
  let format_issues := fun _ : list ZodIssue => "invalid" in
  let send := fun (_ : NotificationRoute) (_ : string) => @throw unit (Error "Telegram failed: 403 Forbidden") in
  let body := JObject [ ("propertyCode", JString "B2x"); ("roomId", JString "101");
                        ("guestName", JString "Jane Doe"); ("phone", JString "+15551234567");
                        ("email", JString "jane@example.com");
                        ("checkIn", JString "2024-06-01"); ("checkOut", JString "2024-06-05") ] in
  let w := {| env := ∅; fetch_reply := fun _ _ => Throw (TypeError "fetch failed");
              sendMail_reply := fun _ _ => Return tt |} in
  POST is_email format_issues send ∅ (Return body) w []
  = (Return (failure_response (Error "Telegram failed: 403 Forbidden")),
     ([] ++ [ELog (Error "Telegram failed: 403 Forbidden")])%list).
Proof.
  intros is_email format_issues send body w.
  apply (POST_chat_failure is_email format_issues send ∅ body
           (mkBooking "B2x" "101" "Jane Doe" "+15551234567" "jane@example.com"
              "2024-06-01" "2024-06-05" "") w [] []); reflexivity.
Defined.

Lemma POST_smtp_missing_witness :
  let is_email := fun _ : string => true in
  let format_issues := fun _ : list ZodIssue => "invalid" in
  let send := fun (_ : NotificationRoute) (_ : string) => @ret unit tt in
  let body := JObject [ ("propertyCode", JString "B2x"); ("roomId", JString "101");
                        ("guestName", JString "Jane Doe"); ("phone", JString "+15551234567");
                        ("email", JString "jane@example.com");
                        ("checkIn", JString "2024-06-01"); ("checkOut", JString "2024-06-05") ] in
  let w := {| env := {[ "SMTP_HOST" := "smtp.example.com"; "SMTP_USER" := "desk" ]};
              fetch_reply := fun _ _ => Throw (TypeError "fetch failed");
              sendMail_reply := fun _ _ => Return tt |} in
  POST is_email format_issues send ∅ (Return body) w []
  = (Return {| http_status := 400; ok := false; error := Some "SMTP env missing" |},
     ([] ++ [ELog (Error "SMTP env missing")])%list).
Proof.
  intros is_email format_issues send body w.
  apply (POST_smtp_missing is_email format_issues send ∅ body
           (mkBooking "B2x" "101" "Jane Doe" "+15551234567" "jane@example.com"
              "2024-06-01" "2024-06-05" "") w [] []); try reflexivity.
  right. right. reflexivity.
Defined.

Lemma POST_success_witness :
  let is_email := fun _ : string => true in
  let format_issues := fun _ : list ZodIssue => "invalid" in
  let send := fun (_ : NotificationRoute) (_ : string) => @ret unit tt in
  let body := JObject [ ("propertyCode", JString "B2x"); ("roomId", JString "101");
                        ("guestName", JString "Jane Doe"); ("phone", JString "+15551234567");
                        ("email", JString "jane@example.com");
                        ("checkIn", JString "2024-06-01"); ("checkOut", JString "2024-06-05") ] in
  let data := mkBooking "B2x" "101" "Jane Doe" "+15551234567" "jane@example.com"
                "2024-06-01" "2024-06-05" "" in
  let w := {| env := {[ "SMTP_HOST" := "smtp.example.com"; "SMTP_USER" := "desk";
                        "SMTP_PASS" := "secret" ]};
              fetch_reply := fun _ _ => Throw (TypeError "fetch failed");
              sendMail_reply := fun _ _ => Return tt |} in
  let t := {| host := "smtp.example.com"; port := Int 587; secure := false;
              auth_user := "desk"; auth_pass := "secret" |} in
  POST is_email format_issues send ∅ (Return body) w []
  = (Return success_response,
     ([] ++ [ESendMail t (mail_of (env w) (guest_email_argument data))])%list).
Proof.
  intros is_email format_issues send body data w t.
  apply (POST_success is_email format_issues send ∅ body data w [] [] t); reflexivity.
Defined.

Lemma POST_mail_failure_witness :
  let is_email := fun _ : string => true in
  let format_issues := fun _ : list ZodIssue => "invalid" in
  let send := fun (_ : NotificationRoute) (_ : string) => @ret unit tt in
  let body := JObject [ ("propertyCode", JString "B2x"); ("roomId", JString "101");
                        ("guestName", JString "Jane Doe"); ("phone", JString "+15551234567");
                        ("email", JString "jane@example.com");
                        ("checkIn", JString "2024-06-01"); ("checkOut", JString "2024-06-05") ] in
  let data := mkBooking "B2x" "101" "Jane Doe" "+15551234567" "jane@example.com"
                "2024-06-01" "2024-06-05" "" in
  let w := {| env := {[ "SMTP_HOST" := "smtp.example.com"; "SMTP_USER" := "desk";
                        "SMTP_PASS" := "secret" ]};
              fetch_reply := fun _ _ => Throw (TypeError "fetch failed");
              sendMail_reply := fun _ _ => Throw (Error "connect ECONNREFUSED") |} in
  let t := {| host := "smtp.example.com"; port := Int 587; secure := false;
              auth_user := "desk"; auth_pass := "secret" |} in
  POST is_email format_issues send ∅ (Return body) w []
  = (Return (failure_response (Error "connect ECONNREFUSED")),
     ([] ++ [ESendMail t (mail_of (env w) (guest_email_argument data));
             ELog (Error "connect ECONNREFUSED")])%list).
Proof.
  intros is_email format_issues send body data w t.
  apply (POST_mail_failure is_email format_issues send ∅ body data w [] []
           t (Error "connect ECONNREFUSED")); reflexivity.
Defined.

(** ** The configuration string: nothing configured *)

(** X26. When TELEGRAM_PROPERTY_CHAT_MAP is not set or empty the parsed
    map is empty, so every property code other than "ALL" that
    [Object.prototype] does not name goes to the default chat id. *)
Theorem parseChatMap_unset (env load_env : gmap string string) (propertyCode : string) :
  falsy_string (load_env !! "TELEGRAM_PROPERTY_CHAT_MAP") = true ->
  parseChatMap load_env = Return ∅
  /\ (propertyCode <> "ALL" -> inherited propertyCode = false ->
      chatId (resolveTelegramRoute ∅ env propertyCode)
      = VNumber (Number (or_else (env_get env "TELEGRAM_DEFAULT_CHAT_ID") (VNumber (Int 0))))).
Proof.
  intros H. split.
  - unfold parseChatMap. destruct (load_env !! "TELEGRAM_PROPERTY_CHAT_MAP") as [s|].
    + destruct s; [reflexivity|discriminate].
    + reflexivity.
  - intros Hne Hinh.
    rewrite (resolveTelegramRoute_unmapped ∅ env propertyCode Hne (lookup_empty _) Hinh).
    reflexivity.
Qed.

Lemma parseChatMap_unset_witness :
  parseChatMap ∅ = Return ∅
  /\ ("GOA" <> "ALL" -> inherited "GOA" = false ->
      chatId (resolveTelegramRoute ∅ ∅ "GOA")
      = VNumber (Number (or_else (env_get ∅ "TELEGRAM_DEFAULT_CHAT_ID") (VNumber (Int 0))))).
Proof. apply (parseChatMap_unset ∅ ∅ "GOA"). reflexivity. Defined.
